(** * Calendar booking agent: availability and slot-suggestion engine

    A shallow embedding of [backend/calendar_utils.py] (class
    [GoogleCalendarAPI]) and of [parse_natural_date] from
    [backend/agent.py], together with the properties of the slot sweep,
    of the overlap test, of error propagation and of the parser chain. *)

From Stdlib Require Import ZArith List String Ascii Bool Lia Sorted.
From Stdlib Require Import Permutation DecimalString.
Import ListNotations.
Open Scope string_scope.
Open Scope list_scope.
Open Scope Z_scope.

(** ** Exceptions and the result type *)

(** The Python exceptions that the modelled code can meet. *)
Inductive Exception : Type :=
| HttpError (msg : string)
| KeyError (key : string)
| ValueError (msg : string)
| TypeError (msg : string)
| OverflowError (msg : string)
| OtherError (msg : string).

Inductive Result (A : Type) : Type :=
| Ok (a : A)
| Raise (e : Exception).
Arguments Ok {A} a.
Arguments Raise {A} e.

Definition bind {A B : Type} (r : Result A) (k : A -> Result B) : Result B :=
  match r with
  | Ok a => k a
  | Raise e => Raise e
  end.

Notation "x <- r ;; k" := (bind r (fun x => k))
  (at level 61, r at next level, right associativity).

(** ** datetime, timedelta and pytz time zones *)

Definition US_PER_MINUTE : Z := 60000000.
Definition US_PER_HOUR : Z := 3600000000.
Definition US_PER_DAY : Z := 86400000000.
(** [date.max.toordinal()], the ordinal of 9999-12-31. *)
Definition MAXORDINAL : Z := 3652059.
(** [timedelta.max.days]. *)
Definition MAX_DELTA_DAYS : Z := 999999999.

(** A [datetime]: the wall-clock reading in microseconds since
    0001-01-01T00:00:00, and the UTC offset (microseconds) of its [tzinfo];
    [None] is a naive datetime. *)
Record datetime : Type := mk_datetime {
  wall : Z;
  tzinfo : option Z
}.

Definition is_aware (d : datetime) : bool :=
  match tzinfo d with Some _ => true | None => false end.

(** The point on the UTC time line that an aware datetime denotes. *)
Definition instant (d : datetime) : Z :=
  match tzinfo d with
  | Some off => wall d - off
  | None => wall d
  end.

Definition in_range (w : Z) : bool :=
  (0 <=? w) && (w <? MAXORDINAL * US_PER_DAY).

(** [timedelta(minutes=n)], in microseconds. *)
Definition timedelta_minutes (n : Z) : Result Z :=
  let days := n / 1440 in
  if (- MAX_DELTA_DAYS <=? days) && (days <=? MAX_DELTA_DAYS)
  then Ok (n * US_PER_MINUTE)
  else Raise (OverflowError "days out of range for timedelta").

(** [d + delta]: wall-clock arithmetic that keeps the [tzinfo]. *)
Definition dt_add (d : datetime) (delta : Z) : Result datetime :=
  let w := wall d + delta in
  if in_range w then Ok (mk_datetime w (tzinfo d))
  else Raise (OverflowError "date value out of range").

(** [d + timedelta(minutes=n)]. *)
Definition dt_add_minutes (d : datetime) (n : Z) : Result datetime :=
  delta <- timedelta_minutes n ;; dt_add d delta.

(** [d.replace(hour=h, minute=0, second=0, microsecond=0)]. *)
Definition replace_hour (d : datetime) (h : Z) : Result datetime :=
  if (0 <=? h) && (h <=? 23)
  then Ok (mk_datetime ((wall d / US_PER_DAY) * US_PER_DAY + h * US_PER_HOUR)
                       (tzinfo d))
  else Raise (ValueError "hour must be in 0..23").

Definition cmp_error : Exception :=
  TypeError "can't compare offset-naive and offset-aware datetimes".

(** Comparison of two datetimes: wall clocks when both are naive, instants
    when both are aware, [TypeError] when they are mixed. *)
Definition dt_compare (test : Z -> Z -> bool) (a b : datetime) : Result bool :=
  match tzinfo a, tzinfo b with
  | None, None => Ok (test (wall a) (wall b))
  | Some oa, Some ob => Ok (test (wall a - oa) (wall b - ob))
  | _, _ => Raise cmp_error
  end.

Definition dt_lt : datetime -> datetime -> Result bool := dt_compare Z.ltb.
Definition dt_le : datetime -> datetime -> Result bool := dt_compare Z.leb.
Definition dt_gt : datetime -> datetime -> Result bool := dt_compare Z.gtb.

(** A pytz time zone: the offset it gives to a wall-clock reading
    ([localize]) and the offset in force at a UTC instant ([fromutc]);
    [has_transitions] tells a zone with transitions (a [DstTzInfo]) from
    [pytz.UTC] and the static zones.  Offsets are shorter than a day and
    the transitions lie far from the two ends of the datetime range. *)
Record Timezone : Type := mk_timezone {
  utcoffset_wall : Z -> Z;
  utcoffset_utc : Z -> Z;
  has_transitions : bool
}.

(** What [localize] of a zone with transitions computes first:
    [d + timedelta(days=-1)] and [d + timedelta(days=1)] must both be
    datetimes. *)
Definition neighbours_in_range (d : datetime) : bool :=
  in_range (wall d - US_PER_DAY) && in_range (wall d + US_PER_DAY).

(** The zone can localize the naive datetime [d]. *)
Definition localizable (tz : Timezone) (d : datetime) : bool :=
  negb (has_transitions tz) || neighbours_in_range d.

(** [tz.localize(d)]: [ValueError] for an aware datetime; for a zone
    with transitions [OverflowError] within a day of [datetime.min] or
    [datetime.max]. *)
Definition localize (tz : Timezone) (d : datetime) : Result datetime :=
  match tzinfo d with
  | Some _ => Raise (ValueError "Not naive datetime (tzinfo is already set)")
  | None =>
      if localizable tz d
      then Ok (mk_datetime (wall d) (Some (utcoffset_wall tz (wall d))))
      else Raise (OverflowError "date value out of range")
  end.

(** [d.astimezone(tz)]; a naive [d] is read in the system's local zone,
    whose offset at a wall-clock reading is [system_offset]. *)
Definition astimezone (system_offset : Z -> Z) (tz : Timezone) (d : datetime)
  : Result datetime :=
  let off := match tzinfo d with
             | Some o => o
             | None => system_offset (wall d)
             end in
  let utc := wall d - off in
  if in_range utc then
    let off' := utcoffset_utc tz utc in
    if in_range (utc + off') then Ok (mk_datetime (utc + off') (Some off'))
    else Raise (OverflowError "date value out of range")
  else Raise (OverflowError "date value out of range").

(** [s.replace('Z', '+00:00')]. *)
Fixpoint replace_Z (s : string) : string :=
  match s with
  | EmptyString => EmptyString
  | String c rest =>
      if Ascii.eqb c "Z"%char then ("+00:00" ++ replace_Z rest)%string
      else String c (replace_Z rest)
  end.

(** ** The calendar provider and the world *)

(** One entry of the provider's [busy] list: a dict with the keys
    ['start'] and ['end']. *)
Record BusyPeriod : Type := mk_busy {
  busy_start_str : string;
  busy_end_str : string
}.

(** The body of a freebusy query. *)
Record Body : Type := mk_body {
  timeMin : string;
  timeMax : string;
  items : list string
}.

(** The provider's answer: [events_result['calendars']], a dict from
    calendar ids to the [busy] list of each. *)
Definition FreeBusyResponse : Type := list (string * list BusyPeriod).

Fixpoint lookup_calendar (id : string) (r : FreeBusyResponse)
  : Result (list BusyPeriod) :=
  match r with
  | [] => Raise (KeyError id)
  | (k, busy) :: rest =>
      if String.eqb k id then Ok busy else lookup_calendar id rest
  end.

Inductive LogRecord : Type :=
| LogInfo (event : string) (count : nat)
| LogError (event : string) (error : Exception).

(** The world that the engine acts on: the freebusy queries sent so far
    and the log. *)
Record World : Type := mk_world {
  requests : list Body;
  log : list LogRecord
}.

Definition send (b : Body) (w : World) : World :=
  mk_world (requests w ++ [b]) (log w).

Definition logger (r : LogRecord) (w : World) : World :=
  mk_world (requests w) (log w ++ [r]).

(** What lies outside the repository: the configuration, the datetime
    text conversions, the system's local zone, and the calendar provider,
    whose answer may depend on how many queries it has already served. *)
Record Env : Type := mk_env {
  timezone : Timezone;
  calendar_id : string;
  isoformat : datetime -> string;
  fromisoformat : string -> Result datetime;
  system_offset : Z -> Z;
  freebusy_execute : nat -> Body -> Result FreeBusyResponse
}.

(** A slot as [suggest_available_slots] returns it. *)
Record Slot : Type := mk_slot {
  slot_start : string;
  slot_end : string;
  duration_minutes : Z
}.

Section Engine.

Variable env : Env.

(** ** [GoogleCalendarAPI.check_availability] *)

Definition freebusy_body (start_date end_date : datetime) : Body :=
  mk_body (isoformat env start_date ++ "Z")%string
          (isoformat env end_date ++ "Z")%string
          [calendar_id env].

Definition check_availability (start_date end_date : datetime) (w : World)
  : Result (list BusyPeriod) * World :=
  let body := freebusy_body start_date end_date in
  let w1 := send body w in
  match (events_result <- freebusy_execute env (List.length (requests w)) body ;;
         lookup_calendar (calendar_id env) events_result) with
  | Ok busy_periods =>
      (Ok busy_periods,
       logger (LogInfo "Availability checked" (List.length busy_periods)) w1)
  | Raise (HttpError m) =>
      (Raise (HttpError m),
       logger (LogError "Failed to check availability" (HttpError m)) w1)
  | Raise e => (Raise e, w1)
  end.

(** ** [GoogleCalendarAPI.suggest_available_slots] *)

(** The test of lines 91-93 between the candidate
    [current_time, slot_end) and a busy interval. *)
Definition overlap_test (current_time slot_end busy_start busy_end : datetime)
  : Result bool :=
  c1 <- dt_lt current_time busy_end ;;
  if c1 then dt_gt slot_end busy_start else Ok false.

(** [busy_start], [busy_end] of lines 85-89. *)
Definition busy_interval (bp : BusyPeriod) : Result (datetime * datetime) :=
  bs0 <- fromisoformat env (replace_Z (busy_start_str bp)) ;;
  be0 <- fromisoformat env (replace_Z (busy_end_str bp)) ;;
  bs <- astimezone (system_offset env) (timezone env) bs0 ;;
  be <- astimezone (system_offset env) (timezone env) be0 ;;
  Ok (bs, be).

(** The inner [for] loop; its value is [is_available]. *)
Fixpoint scan_busy (busy_periods : list BusyPeriod)
  (current_time slot_end : datetime) : Result bool :=
  match busy_periods with
  | [] => Ok true
  | bp :: rest =>
      iv <- busy_interval bp ;;
      hit <- overlap_test current_time slot_end (fst iv) (snd iv) ;;
      if hit then Ok false else scan_busy rest current_time slot_end
  end.

Definition slot_dict (duration : Z) (current_time slot_end : datetime) : Slot :=
  mk_slot (isoformat env current_time) (isoformat env slot_end) duration.

(** The [while] loop of lines 80-103.  [None] means that [fuel]
    iterations were not enough to leave the loop. *)
Fixpoint sweep (fuel : nat) (busy_periods : list BusyPeriod)
  (duration : Z) (day_end current_time : datetime)
  (available_slots : list Slot) : option (Result (list Slot)) :=
  match fuel with
  | O => None
  | S fuel' =>
      match (t <- dt_add_minutes current_time duration ;;
             dt_le t day_end) with
      | Raise e => Some (Raise e)
      | Ok false => Some (Ok available_slots)
      | Ok true =>
          match (slot_end <- dt_add_minutes current_time duration ;;
                 is_available <- scan_busy busy_periods current_time slot_end ;;
                 next <- dt_add_minutes current_time 30 ;;
                 Ok (slot_end, is_available, next)) with
          | Raise e => Some (Raise e)
          | Ok (slot_end, is_available, next) =>
              sweep fuel' busy_periods duration day_end next
                (if is_available
                 then available_slots ++
                        [slot_dict duration current_time slot_end]
                 else available_slots)
          end
      end
  end.

(** Lines 70-73: the localized target and the working-hours window. *)
Definition working_window (target_date : datetime) (start_hour end_hour : Z)
  : Result (datetime * datetime) :=
  target <- localize (timezone env) target_date ;;
  day_start <- replace_hour target start_hour ;;
  day_end <- replace_hour target end_hour ;;
  Ok (day_start, day_end).

Definition suggest_failed (e : Exception) (w : World)
  : Result (list Slot) * World :=
  (Raise e, logger (LogError "Failed to suggest available slots" e) w).

Definition suggest_available_slots (fuel : nat) (target_date : datetime)
  (duration : Z) (start_hour end_hour : Z) (w : World)
  : option (Result (list Slot) * World) :=
  match working_window target_date start_hour end_hour with
  | Raise e => Some (suggest_failed e w)
  | Ok (day_start, day_end) =>
      match check_availability day_start day_end w with
      | (Raise e, w1) => Some (suggest_failed e w1)
      | (Ok busy_periods, w1) =>
          match sweep fuel busy_periods duration day_end day_start [] with
          | None => None
          | Some (Raise e) => Some (suggest_failed e w1)
          | Some (Ok available_slots) =>
              Some (Ok available_slots,
                    logger (LogInfo "Available slots suggested"
                                    (List.length available_slots)) w1)
          end
      end
  end.

End Engine.

(** ** [GoogleCalendarAPI.book_event], lines 124-127 *)

(** The two guards that localize naive start and end times. *)
Definition book_event_times (tz : Timezone) (start_time end_time : datetime)
  : Result (datetime * datetime) :=
  start_time' <- match tzinfo start_time with
                 | None => localize tz start_time
                 | Some _ => Ok start_time
                 end ;;
  end_time' <- match tzinfo end_time with
               | None => localize tz end_time
               | Some _ => Ok end_time
               end ;;
  Ok (start_time', end_time').

(** ** The [datetime] constructor *)

Definition is_leap (year : Z) : bool :=
  (year mod 4 =? 0) && (negb (year mod 100 =? 0) || (year mod 400 =? 0)).

Definition days_before_year (year : Z) : Z :=
  let y := year - 1 in y * 365 + y / 4 - y / 100 + y / 400.

Definition DAYS_IN_MONTH : list Z :=
  [31; 28; 31; 30; 31; 30; 31; 31; 30; 31; 30; 31].

Definition days_in_month (year month : Z) : Z :=
  if (month =? 2) && is_leap year then 29
  else nth (Z.to_nat (month - 1)) DAYS_IN_MONTH 0.

Definition DAYS_BEFORE_MONTH : list Z :=
  [0; 31; 59; 90; 120; 151; 181; 212; 243; 273; 304; 334].

Definition days_before_month (year month : Z) : Z :=
  nth (Z.to_nat (month - 1)) DAYS_BEFORE_MONTH 0
  + (if (2 <? month) && is_leap year then 1 else 0).

Definition ymd2ord (year month day : Z) : Z :=
  days_before_year year + days_before_month year month + day.

Definition US_PER_SECOND : Z := 1000000.

(** [datetime(year, month, day, hour, minute, second)]: a naive datetime,
    or [ValueError] when a field is out of range. *)
Definition datetime_new (year month day hour minute second : Z)
  : Result datetime :=
  if (1 <=? year) && (year <=? 9999) && (1 <=? month) && (month <=? 12)
     && (1 <=? day) && (day <=? days_in_month year month)
     && (0 <=? hour) && (hour <=? 23) && (0 <=? minute) && (minute <=? 59)
     && (0 <=? second) && (second <=? 59)
  then Ok (mk_datetime ((ymd2ord year month day - 1) * US_PER_DAY
                        + hour * US_PER_HOUR + minute * US_PER_MINUTE
                        + second * US_PER_SECOND) None)
  else Raise (ValueError "datetime field out of range").

(** ** [parse_natural_date] *)

(** A [time.struct_time]. *)
Record struct_time : Type := mk_struct_time {
  tm_year : Z; tm_mon : Z; tm_mday : Z;
  tm_hour : Z; tm_min : Z; tm_sec : Z;
  tm_wday : Z; tm_yday : Z; tm_isdst : Z
}.

(** The two parsing libraries: [cal.parse] of parsedatetime, which returns
    a struct_time and a status (0 when nothing was recognised), and
    [parser.parse] of dateutil. *)
Record Parsers : Type := mk_parsers {
  cal_parse : string -> Result (struct_time * Z);
  dateutil_parse : string -> Result datetime
}.

(** What [parse_natural_date] does, in order. *)
Inductive ParseEvent : Type :=
| CalParse (date_str : string)
| DateutilParse (date_str : string)
| LogDebug (event : string)
| LogParseError (event : string) (error : Exception).

(** The [datetime] built from the first six fields of [time_struct]. *)
Definition datetime_of_struct (ts : struct_time) : Result datetime :=
  datetime_new (tm_year ts) (tm_mon ts) (tm_mday ts)
               (tm_hour ts) (tm_min ts) (tm_sec ts).

(** The [except Exception] handler. *)
Definition parse_handler (P : Parsers) (date_str : string) (e : Exception)
  (done : list ParseEvent) : Result datetime * list ParseEvent :=
  (dateutil_parse P date_str,
   done ++ [LogParseError "Error parsing date" e; DateutilParse date_str]).

Definition parse_natural_date (P : Parsers) (date_str : string)
  : Result datetime * list ParseEvent :=
  match cal_parse P date_str with
  | Raise e => parse_handler P date_str e [CalParse date_str]
  | Ok (time_struct, parse_status) =>
      if parse_status =? 0 then
        let done := [CalParse date_str;
                     LogDebug "parsedatetime failed, using dateutil.parser";
                     DateutilParse date_str] in
        match dateutil_parse P date_str with
        | Ok d => (Ok d, done)
        | Raise e => parse_handler P date_str e done
        end
      else
        let done := [CalParse date_str; LogDebug "parsedatetime succeeded"] in
        match datetime_of_struct time_struct with
        | Ok d => (Ok d, done)
        | Raise e => parse_handler P date_str e done
        end
  end.

(** ** A concrete environment

    [datetime.isoformat] written out, two fixed-offset zones, a table
    reader for the texts that the sample providers send, and providers that
    answer with a given busy list or fail. *)
Module Sample.

Local Infix "+++" := String.append (at level 60, right associativity).

Definition digit (n : Z) : string :=
  String (ascii_of_nat (48 + Z.to_nat (n mod 10))) EmptyString.
Definition pad2 (n : Z) : string := digit (n / 10) +++ digit n.
Definition pad4 (n : Z) : string := pad2 (n / 100) +++ pad2 (n mod 100).
Definition pad6 (n : Z) : string := pad2 (n / 10000) +++ pad4 (n mod 10000).

(** [_ord2ymd] of the datetime module. *)
Definition ord2ymd (ordinal : Z) : Z * Z * Z :=
  let n := ordinal - 1 in
  let n400 := n / 146097 in
  let n := n mod 146097 in
  let n100 := n / 36524 in
  let n := n mod 36524 in
  let n4 := n / 1461 in
  let n := n mod 1461 in
  let n1 := n / 365 in
  let n := n mod 365 in
  let year := n400 * 400 + 1 + n100 * 100 + n4 * 4 + n1 in
  if (n1 =? 4) || (n100 =? 4) then (year - 1, 12, 31)
  else
    let leapyear := (n1 =? 3) && (negb (n4 =? 24) || (n100 =? 3)) in
    let month := Z.shiftr (n + 50) 5 in
    let preceding := nth (Z.to_nat (month - 1)) DAYS_BEFORE_MONTH 0
                     + (if (2 <? month) && leapyear then 1 else 0) in
    if n <? preceding then
      let month := month - 1 in
      let preceding := preceding
                       - (nth (Z.to_nat (month - 1)) DAYS_IN_MONTH 0
                          + (if (month =? 2) && leapyear then 1 else 0)) in
      (year, month, n - preceding + 1)
    else (year, month, n - preceding + 1).

(** Seconds and microseconds, printed only when they are not zero. *)
Definition format_seconds (us : Z) : string :=
  if us mod US_PER_MINUTE =? 0 then ""
  else ":" +++ pad2 (us / US_PER_SECOND mod 60)
       +++ (if us mod US_PER_SECOND =? 0 then ""
            else "." +++ pad6 (us mod US_PER_SECOND)).

Definition format_offset (off : Z) : string :=
  let a := Z.abs off in
  (if off <? 0 then "-" else "+")
  +++ pad2 (a / US_PER_HOUR) +++ ":" +++ pad2 (a / US_PER_MINUTE mod 60)
  +++ format_seconds a.

Definition isoformat (d : datetime) : string :=
  let '(y, m, dd) := ord2ymd (wall d / US_PER_DAY + 1) in
  let us := wall d mod US_PER_DAY in
  pad4 y +++ "-" +++ pad2 m +++ "-" +++ pad2 dd +++ "T"
  +++ pad2 (us / US_PER_HOUR) +++ ":" +++ pad2 (us / US_PER_MINUTE mod 60)
  +++ ":" +++ pad2 (us / US_PER_SECOND mod 60)
  +++ (if us mod US_PER_SECOND =? 0 then ""
       else "." +++ pad6 (us mod US_PER_SECOND))
  +++ match tzinfo d with
      | None => ""
      | Some off => format_offset off
      end.

(** A static zone. *)
Definition fixed_zone (offset : Z) : Timezone :=
  mk_timezone (fun _ => offset) (fun _ => offset) false.

Definition UTC : Timezone := fixed_zone 0.

(** A naive datetime given by its fields (0 when they are out of range). *)
Definition naive (year month day hour minute : Z) : datetime :=
  match datetime_new year month day hour minute 0 with
  | Ok d => d
  | Raise _ => mk_datetime 0 None
  end.

(** The same reading in UTC. *)
Definition utc (year month day hour minute : Z) : datetime :=
  mk_datetime (wall (naive year month day hour minute)) (Some 0).

(** A reader that knows the texts of a table and rejects every other. *)
Fixpoint table_parse (table : list (string * datetime)) (s : string)
  : Result datetime :=
  match table with
  | [] => Raise (ValueError "Invalid isoformat string")
  | (k, d) :: rest => if String.eqb k s then Ok d else table_parse rest s
  end.

Definition texts : list (string * datetime) :=
  [ ("2025-01-15T09:00:00+00:00", utc 2025 1 15 9 0);
    ("2025-01-15T10:00:00+00:00", utc 2025 1 15 10 0);
    ("2025-01-15T10:30:00+00:00", utc 2025 1 15 10 30);
    ("2025-01-15T11:00:00+00:00", utc 2025 1 15 11 0);
    ("2025-01-15T12:00:00+00:00", utc 2025 1 15 12 0);
    ("2025-01-15T14:00:00+00:00", utc 2025 1 15 14 0);
    ("2025-01-15T15:00:00+00:00", utc 2025 1 15 15 0);
    ("2025-01-15T17:00:00+00:00", utc 2025 1 15 17 0) ].

Definition answering (busy : list BusyPeriod)
  : nat -> Body -> Result FreeBusyResponse :=
  fun _ _ => Ok [("primary", busy)].

Definition failing (e : Exception) : nat -> Body -> Result FreeBusyResponse :=
  fun _ _ => Raise e.

Definition env_of (tz : Timezone)
  (provider : nat -> Body -> Result FreeBusyResponse) : Env :=
  mk_env tz "primary" isoformat (table_parse texts) (fun _ => 0) provider.

Definition world0 : World := mk_world [] [].

Definition busy (start_text end_text : string) : BusyPeriod :=
  mk_busy start_text end_text.

(** The day of the examples, as the normalizer hands it over. *)
Definition target : datetime := naive 2025 1 15 13 45.

(** A calendar in UTC with one meeting from 10:00 to 10:30. *)
Definition one_meeting : Env :=
  env_of UTC (answering [busy "2025-01-15T10:00:00Z" "2025-01-15T10:30:00Z"]).


(** A calendar in UTC with nothing booked. *)
Definition free_day : Env := env_of UTC (answering []).

(** A calendar in UTC whose provider lists a meeting from 14:00 to 15:00
    before one from 10:00 to 11:00. *)
Definition unsorted_day : Env :=
  env_of UTC (answering [busy "2025-01-15T14:00:00Z" "2025-01-15T15:00:00Z";
                         busy "2025-01-15T10:00:00Z" "2025-01-15T11:00:00Z"]).

(** Parsers on 2025-01-15: parsedatetime recognises "tomorrow at 3pm" as
    a date and a time (status 3) and nothing else; dateutil reads one
    ISO text. *)
Definition parsers : Parsers :=
  mk_parsers
    (fun s => if String.eqb s "tomorrow at 3pm"
              then Ok (mk_struct_time 2025 1 16 15 0 0 3 16 (-1), 3)
              else Ok (mk_struct_time 2025 1 15 13 45 0 2 15 (-1), 0))
    (fun s => if String.eqb s "2025-01-16T15:00:00+00:00"
              then Ok (utc 2025 1 16 15 0)
              else Raise (ValueError "Unknown string format")).

(** A calendar in UTC with one meeting over the whole working day. *)
Definition booked_day : Env :=
  env_of UTC (answering [busy "2025-01-15T09:00:00Z" "2025-01-15T17:00:00Z"]).

(** A provider that answers for another calendar only. *)
Definition wrong_calendar : Env :=
  env_of UTC (fun _ _ => Ok [("team", [])]).

(** A calendar whose provider is down. *)
Definition provider_down : Env :=
  env_of UTC (failing (HttpError "503 Service Unavailable")).

End Sample.

(** ** Notions used to state the properties *)

(** Wall-clock arithmetic without the range check of [dt_add]. *)
Definition shift (d : datetime) (delta : Z) : datetime :=
  mk_datetime (wall d + delta) (tzinfo d).

(** The candidate enumeration in the words of the specification: start at
    [window_start], advance by [step] minutes, each candidate [duration]
    minutes long, stop at the first candidate that ends after
    [window_end].  [candidate_count] is the number of candidates before
    that one. *)
Definition candidate_count (step duration : Z)
  (window_start window_end : datetime) : nat :=
  let room := instant window_end - instant window_start
              - duration * US_PER_MINUTE in
  if 0 <=? room then Z.to_nat (room / (step * US_PER_MINUTE) + 1) else O.

Fixpoint candidates_from (n : nat) (step duration : Z) (start : datetime)
  : list (datetime * datetime) :=
  match n with
  | O => []
  | S n' =>
      (start, shift start (duration * US_PER_MINUTE))
        :: candidates_from n' step duration (shift start (step * US_PER_MINUTE))
  end.

Definition candidates (step duration : Z)
  (window_start window_end : datetime) : list (datetime * datetime) :=
  candidates_from (candidate_count step duration window_start window_end)
                  step duration window_start.

(** A candidate is free when the scan of the busy list ends with
    [is_available] still true. *)
Definition is_free (env : Env) (busy_periods : list BusyPeriod)
  (iv : datetime * datetime) : bool :=
  match scan_busy env busy_periods (fst iv) (snd iv) with
  | Ok true => true
  | _ => false
  end.

Definition to_slot (env : Env) (duration : Z) (iv : datetime * datetime)
  : Slot :=
  slot_dict env duration (fst iv) (snd iv).

(** [suggestSlots] of the specification, with its [stepMinutes]. *)
Definition suggestSlots_spec (env : Env) (stepMinutes durationMinutes : Z)
  (busy_periods : list BusyPeriod) (window_start window_end : datetime)
  : list Slot :=
  map (to_slot env durationMinutes)
      (filter (is_free env busy_periods)
              (candidates stepMinutes durationMinutes
                          window_start window_end)).

(** Two half-open intervals share a point of the time line. *)
Definition share_instant (a b c d : datetime) : Prop :=
  exists t : Z, (instant a <= t < instant b) /\ (instant c <= t < instant d).

(** The number of times the sweep runs its loop body: the candidates at
    30-minute steps that end by [day_end]. *)
Definition iterations_bound (duration : Z) (day_end current_time : datetime)
  : nat :=
  candidate_count 30 duration current_time day_end.

(** The busy intervals of a whole list, when each of them can be read. *)
Fixpoint busy_intervals (env : Env) (l : list BusyPeriod)
  : Result (list (datetime * datetime)) :=
  match l with
  | [] => Ok []
  | bp :: rest =>
      iv <- busy_interval env bp ;;
      ivs <- busy_intervals env rest ;;
      Ok (iv :: ivs)
  end.

(** Start times in ascending order. *)
Fixpoint starts_ascending (l : list (datetime * datetime)) : bool :=
  match l with
  | [] => true
  | iv :: rest =>
      match rest with
      | [] => true
      | iv' :: _ => (instant (fst iv) <=? instant (fst iv'))
                    && starts_ascending rest
      end
  end.

(** An interval overlaps the window [window_start, window_end). *)
Definition overlaps_window (window_start window_end : datetime)
  (iv : datetime * datetime) : bool :=
  (instant (fst iv) <? instant window_end)
  && (instant window_start <? instant (snd iv)).

(** The natural-language strategy alone: parsedatetime must recognise
    something and the fields must make a datetime. *)
Definition natural_strategy (P : Parsers) (date_str : string)
  : Result datetime :=
  r <- cal_parse P date_str ;;
  if snd r =? 0 then Raise (ValueError "nothing recognised")
  else datetime_of_struct (fst r).

(** An ordered chain of strategies in the words of the specification: the
    first success wins, and when all fail the last failure is the
    result. *)
Fixpoint tryParse_chain (strategies : list (string -> Result datetime))
  (text : string) : Result datetime :=
  match strategies with
  | [] => Raise (ValueError "no parser")
  | tryParse :: rest =>
      match tryParse text with
      | Ok d => Ok d
      | Raise e =>
          match rest with
          | [] => Raise e
          | _ :: _ => tryParse_chain rest text
          end
      end
  end.

(** The localized target's day at a given hour and minute. *)
Definition on_day (env : Env) (target_date : datetime) (hour minute : Z)
  : datetime :=
  mk_datetime (wall target_date / US_PER_DAY * US_PER_DAY
               + hour * US_PER_HOUR + minute * US_PER_MINUTE)
              (Some (utcoffset_wall (timezone env) (wall target_date))).

(** What the provider answers to the query that [check_availability]
    sends for a window in world [w]: the busy list of the calendar. *)
Definition provider_fetch (env : Env) (window_start window_end : datetime)
  (w : World) : Result (list BusyPeriod) :=
  events_result <- freebusy_execute env (List.length (requests w))
                     (freebusy_body env window_start window_end) ;;
  lookup_calendar (calendar_id env) events_result.

(** The candidate [current_time, slot_end) is free of a busy list: every
    busy period can be read, the overlap test is false on it, and the two
    intervals share no instant. *)
Definition slot_free (env : Env) (busy_periods : list BusyPeriod)
  (current_time slot_end : datetime) : Prop :=
  Forall (fun bp =>
            exists busy_start busy_end,
              busy_interval env bp = Ok (busy_start, busy_end) /\
              overlap_test current_time slot_end busy_start busy_end
              = Ok false /\
              ~ share_instant current_time slot_end busy_start busy_end)
         busy_periods.

(** The hour-long slot that starts at a given hour and minute of the
    target's day. *)
Definition hour_long_slot (env : Env) (target_date : datetime)
  (start : Z * Z) : Slot :=
  slot_dict env 60 (on_day env target_date (fst start) (snd start))
                   (on_day env target_date (fst start + 1) (snd start)).

(** The hourly slots 09:00-10:00, 10:00-11:00, ..., 16:00-17:00. *)
Definition hourly_starts : list (Z * Z) :=
  [(9, 0); (10, 0); (11, 0); (12, 0); (13, 0); (14, 0); (15, 0); (16, 0)].

(** The slots 09:00-10:00, 09:30-10:30, ..., 16:00-17:00. *)
Definition half_hourly_starts : list (Z * Z) :=
  [(9, 0); (9, 30); (10, 0); (10, 30); (11, 0); (11, 30); (12, 0); (12, 30);
   (13, 0); (13, 30); (14, 0); (14, 30); (15, 0); (15, 30); (16, 0)].


(** A busy period can be read: both texts parse and convert. *)
Definition readable (env : Env) (bp : BusyPeriod) : Prop :=
  exists iv, busy_interval env bp = Ok iv.

(** A readable busy period overlaps the candidate [c, e). *)
Definition hits (env : Env) (c e : datetime) (bp : BusyPeriod) : bool :=
  match busy_interval env bp with
  | Ok iv => (instant c <? instant (snd iv)) && (instant (fst iv) <? instant e)
  | Raise _ => false
  end.

(** * The event operations of [GoogleCalendarAPI] *)

(** ** JSON values of the provider's answers *)

Unset Elimination Schemes.
Inductive Json : Type :=
| JNull
| JBool (b : bool)
| JNum (n : Z)
| JStr (s : string)
| JList (items : list Json)
| JDict (fields : list (string * Json)).
Set Elimination Schemes.

Fixpoint dict_find (key : string) (fields : list (string * Json))
  : option Json :=
  match fields with
  | [] => None
  | (k, v) :: rest => if String.eqb k key then Some v else dict_find key rest
  end.

(** [v[key]] for a text key. *)
Definition subscript (v : Json) (key : string) : Result Json :=
  match v with
  | JDict fields =>
      match dict_find key fields with
      | Some x => Ok x
      | None => Raise (KeyError key)
      end
  | JStr _ => Raise (TypeError "string indices must be integers")
  | JList _ => Raise (TypeError "list indices must be integers or slices")
  | JNull | JBool _ | JNum _ =>
      Raise (TypeError "object is not subscriptable")
  end.

Definition attribute_error : Exception :=
  OtherError "AttributeError: object has no attribute 'get'".

(** [v.get(key, default)]. *)
Definition dict_get (v : Json) (key : string) (default : Json) : Result Json :=
  match v with
  | JDict fields =>
      Ok (match dict_find key fields with
          | Some x => x
          | None => default
          end)
  | _ => Raise attribute_error
  end.

(** The elements that a [for] loop over [v] visits: the items of a list,
    the keys of a dict, the one-character texts of a text. *)
Definition py_iter (v : Json) : Result (list Json) :=
  match v with
  | JList l => Ok l
  | JDict fields => Ok (map (fun kv => JStr (fst kv)) fields)
  | JStr s =>
      Ok (map (fun c => JStr (String c EmptyString)) (list_ascii_of_string s))
  | JNull | JBool _ | JNum _ => Raise (TypeError "object is not iterable")
  end.

(** ** The events service and its ledger *)

(** The body of an insert request; [attendees] is [None] when the key is
    not set. *)
Record EventBody : Type := mk_event_body {
  summary : string;
  description : string;
  start_dateTime : string;
  start_timeZone : string;
  end_dateTime : string;
  end_timeZone : string;
  attendees : option (list string)
}.

(** The arguments of a list request. *)
Record ListQuery : Type := mk_list_query {
  list_calendarId : string;
  list_timeMin : string;
  list_timeMax : string;
  singleEvents : bool;
  orderBy : string
}.

(** The events side of the provider, with [config.TIMEZONE]; each
    operation may depend on how many requests of its kind came before. *)
Record Service : Type := mk_service {
  TIMEZONE : string;
  events_insert : nat -> string -> EventBody -> Result Json;
  events_list : nat -> ListQuery -> Result Json;
  events_delete : nat -> string -> string -> Result unit
}.

Inductive ServiceLog : Type :=
| SInfo (event : string)
| SError (event : string) (error : Exception).

(** The requests sent to the events service so far, and the log. *)
Record Ledger : Type := mk_ledger {
  inserts : list EventBody;
  lists : list ListQuery;
  deletes : list string;
  journal : list ServiceLog
}.

Definition note (r : ServiceLog) (L : Ledger) : Ledger :=
  mk_ledger (inserts L) (lists L) (deletes L) (journal L ++ [r]).

Definition sent_insert (b : EventBody) (L : Ledger) : Ledger :=
  mk_ledger (inserts L ++ [b]) (lists L) (deletes L) (journal L).

Definition sent_list (q : ListQuery) (L : Ledger) : Ledger :=
  mk_ledger (inserts L) (lists L ++ [q]) (deletes L) (journal L).

Definition sent_delete (id : string) (L : Ledger) : Ledger :=
  mk_ledger (inserts L) (lists L) (deletes L ++ [id]) (journal L).

(** The handler [except HttpError as e: logger.error(...); raise]: other
    exceptions pass it untouched. *)
Definition http_handler {A : Type} (event : string) (e : Exception)
  (L : Ledger) : Result A * Ledger :=
  match e with
  | HttpError m => (Raise (HttpError m), note (SError event (HttpError m)) L)
  | _ => (Raise e, L)
  end.

(** ** [GoogleCalendarAPI.book_event] *)

(** The dict that [book_event] returns. *)
Record Booked : Type := mk_booked {
  booked_id : Json;
  booked_title : Json;
  booked_start_time : Json;
  booked_end_time : Json;
  booked_html_link : Json
}.

Definition event_body (env : Env) (svc : Service) (title : string)
  (start_time end_time : datetime) (description : string)
  (attendees : option (list string)) : EventBody :=
  mk_event_body title description
    (isoformat env start_time) (TIMEZONE svc)
    (isoformat env end_time) (TIMEZONE svc)
    (match attendees with
     | Some (email :: emails) => Some (email :: emails)
     | _ => None
     end).

(** The returned dict, read from the provider's event in the order of
    the source. *)
Definition booked_of (event : Json) : Result Booked :=
  id <- subscript event "id" ;;
  title <- subscript event "summary" ;;
  start <- subscript event "start" ;;
  start_time <- subscript start "dateTime" ;;
  end_ <- subscript event "end" ;;
  end_time <- subscript end_ "dateTime" ;;
  html_link <- subscript event "htmlLink" ;;
  Ok (mk_booked id title start_time end_time html_link).

Definition book_event (env : Env) (svc : Service) (title : string)
  (start_time end_time : datetime) (description : string)
  (attendees : option (list string)) (L : Ledger) : Result Booked * Ledger :=
  match book_event_times (timezone env) start_time end_time with
  | Raise e => http_handler "Failed to book event" e L
  | Ok (start_time', end_time') =>
      let body := event_body env svc title start_time' end_time'
                             description attendees in
      let L1 := sent_insert body L in
      match events_insert svc (List.length (inserts L)) (calendar_id env) body
      with
      | Raise e => http_handler "Failed to book event" e L1
      | Ok event =>
          match subscript event "id" with
          | Raise e => http_handler "Failed to book event" e L1
          | Ok _ =>
              let L2 := note (SInfo "Event booked successfully") L1 in
              match booked_of event with
              | Raise e => http_handler "Failed to book event" e L2
              | Ok booked => (Ok booked, L2)
              end
          end
      end
  end.

(** ** [GoogleCalendarAPI.get_events_for_date] *)

(** [d.replace(hour=h, minute=m, second=s, microsecond=us)]. *)
Definition replace_time (d : datetime) (h m s us : Z) : Result datetime :=
  if (0 <=? h) && (h <=? 23) && (0 <=? m) && (m <=? 59)
     && (0 <=? s) && (s <=? 59) && (0 <=? us) && (us <=? 999999)
  then Ok (mk_datetime (wall d / US_PER_DAY * US_PER_DAY + h * US_PER_HOUR
                        + m * US_PER_MINUTE + s * US_PER_SECOND + us)
                       (tzinfo d))
  else Raise (ValueError "time field out of range").

(** One entry of the list that [get_events_for_date] returns. *)
Record FormattedEvent : Type := mk_formatted {
  fe_id : Json;
  fe_title : Json;
  fe_start : Json;
  fe_end : Json;
  fe_description : Json
}.

(** [event[key].get('dateTime', event[key].get('date'))]. *)
Definition time_or_date (event : Json) (key : string) : Result Json :=
  receiver <- subscript event key ;;
  again <- subscript event key ;;
  default <- dict_get again "date" JNull ;;
  dict_get receiver "dateTime" default.

Definition format_event (event : Json) : Result FormattedEvent :=
  start <- time_or_date event "start" ;;
  end_ <- time_or_date event "end" ;;
  id <- subscript event "id" ;;
  title <- subscript event "summary" ;;
  desc <- dict_get event "description" (JStr "") ;;
  Ok (mk_formatted id title start end_ desc).

(** The [for] loop over the events. *)
Fixpoint format_events (events : list Json) : Result (list FormattedEvent) :=
  match events with
  | [] => Ok []
  | event :: rest =>
      formatted <- format_event event ;;
      more <- format_events rest ;;
      Ok (formatted :: more)
  end.

(** Lines 172-175: the localized target and the bounds of its day. *)
Definition whole_day (env : Env) (target_date : datetime)
  : Result (datetime * datetime) :=
  target <- localize (timezone env) target_date ;;
  day_start <- replace_time target 0 0 0 0 ;;
  day_end <- replace_time target 23 59 59 999999 ;;
  Ok (day_start, day_end).

Definition day_query (env : Env) (day_start day_end : datetime) : ListQuery :=
  mk_list_query (calendar_id env) (isoformat env day_start)
                (isoformat env day_end) true "startTime".

Definition get_events_for_date (env : Env) (svc : Service)
  (target_date : datetime) (L : Ledger)
  : Result (list FormattedEvent) * Ledger :=
  match whole_day env target_date with
  | Raise e => http_handler "Failed to get events for date" e L
  | Ok (day_start, day_end) =>
      let q := day_query env day_start day_end in
      let L1 := sent_list q L in
      match events_list svc (List.length (lists L)) q with
      | Raise e => http_handler "Failed to get events for date" e L1
      | Ok events_result =>
          match (events <- dict_get events_result "items" (JList []) ;;
                 visited <- py_iter events ;;
                 format_events visited) with
          | Raise e => http_handler "Failed to get events for date" e L1
          | Ok formatted_events =>
              (Ok formatted_events,
               note (SInfo "Events retrieved for date") L1)
          end
      end
  end.

(** ** [GoogleCalendarAPI.delete_event] *)

Definition delete_event (env : Env) (svc : Service) (event_id : string)
  (L : Ledger) : Result bool * Ledger :=
  let L1 := sent_delete event_id L in
  match events_delete svc (List.length (deletes L)) (calendar_id env) event_id
  with
  | Ok _ => (Ok true, note (SInfo "Event deleted successfully") L1)
  | Raise (HttpError m) =>
      (Ok false, note (SError "Failed to delete event" (HttpError m)) L1)
  | Raise e => (Raise e, L1)
  end.

(** A time as [book_event] sends it: unchanged when it carries a time
    zone, with the calendar zone's offset attached when it is naive. *)
Definition sent_time (tz : Timezone) (d : datetime) : datetime :=
  match tzinfo d with
  | Some _ => d
  | None => mk_datetime (wall d) (Some (utcoffset_wall tz (wall d)))
  end.

(** The time that [get_events_for_date] shows for one end of an event:
    its [dateTime], else its [date] (an all-day event), else [None]. *)
Definition shown_time (fields : list (string * Json)) : Json :=
  match dict_find "dateTime" fields with
  | Some t => t
  | None =>
      match dict_find "date" fields with
      | Some d => d
      | None => JNull
      end
  end.

(** An entry of the returned list comes from an event of the provider. *)
Definition entry_of (event : Json) (entry : FormattedEvent) : Prop :=
  exists fields start_fields end_fields,
    event = JDict fields /\
    dict_find "start" fields = Some (JDict start_fields) /\
    dict_find "end" fields = Some (JDict end_fields) /\
    dict_find "id" fields = Some (fe_id entry) /\
    dict_find "summary" fields = Some (fe_title entry) /\
    fe_start entry = shown_time start_fields /\
    fe_end entry = shown_time end_fields /\
    fe_description entry
    = match dict_find "description" fields with
      | Some d => d
      | None => JStr ""
      end.

(** ** A concrete events service *)
Module SampleService.

Definition created (body : EventBody) : Json :=
  JDict [("id", JStr "evt1");
         ("summary", JStr (summary body));
         ("start", JDict [("dateTime", JStr (start_dateTime body));
                          ("timeZone", JStr (start_timeZone body))]);
         ("end", JDict [("dateTime", JStr (end_dateTime body));
                        ("timeZone", JStr (end_timeZone body))]);
         ("htmlLink", JStr "https://calendar.example/evt1")].

(** A timed meeting with a description, an all-day event, and an event
    without a title. *)
Definition standup : Json :=
  JDict [("id", JStr "a1"); ("summary", JStr "Standup");
         ("description", JStr "Daily sync");
         ("start", JDict [("dateTime", JStr "2025-01-15T09:00:00+00:00")]);
         ("end", JDict [("dateTime", JStr "2025-01-15T09:15:00+00:00")])].

Definition holiday : Json :=
  JDict [("id", JStr "a2"); ("summary", JStr "Holiday");
         ("start", JDict [("date", JStr "2025-01-15")]);
         ("end", JDict [("date", JStr "2025-01-16")])].

Definition untitled : Json :=
  JDict [("id", JStr "a3");
         ("start", JDict [("dateTime", JStr "2025-01-15T11:00:00+00:00")]);
         ("end", JDict [("dateTime", JStr "2025-01-15T12:00:00+00:00")])].

(** A service that creates what it is asked, lists two events and
    deletes the event evt1 only. *)
Definition service : Service :=
  mk_service "UTC"
    (fun _ _ body => Ok (created body))
    (fun _ _ => Ok (JDict [("items", JList [standup; holiday])]))
    (fun _ _ id => if String.eqb id "evt1" then Ok tt
                   else Raise (HttpError "404 Not Found")).

(** A service whose calendar holds an untitled event, and whose answer
    to an insert lacks the link. *)
Definition sloppy : Service :=
  mk_service "UTC"
    (fun _ _ body => Ok (JDict [("id", JStr "evt2");
                                ("summary", JStr (summary body))]))
    (fun _ _ => Ok (JDict [("items", JList [standup; untitled; holiday])]))
    (fun _ _ _ => Raise (OtherError "TimeoutError"))
  .

(** A service that refuses every request. *)
Definition refusing : Service :=
  mk_service "UTC"
    (fun _ _ _ => Raise (HttpError "403 Forbidden"))
    (fun _ _ => Raise (HttpError "403 Forbidden"))
    (fun _ _ _ => Raise (HttpError "403 Forbidden")).

Definition ledger0 : Ledger := mk_ledger [] [] [] [].

End SampleService.

(** * The agent layer of [backend/agent.py] *)

Definition newline : string := String "010"%char EmptyString.

(** [str(n)] for an int. *)
Definition str_int (n : Z) : string := NilZero.string_of_int (Z.to_int n).

Definition decimal_digit (n : Z) : string :=
  String (ascii_of_nat (48 + Z.to_nat (n mod 10))) EmptyString.

Definition two_digits (n : Z) : string :=
  (decimal_digit (n / 10) ++ decimal_digit n)%string.

(** [d.strftime('%H:%M')]. *)
Definition strftime_HM (d : datetime) : string :=
  (two_digits (wall d mod US_PER_DAY / US_PER_HOUR) ++ ":"
   ++ two_digits (wall d mod US_PER_DAY / US_PER_MINUTE mod 60))%string.

(** ** [SuggestSlotsTool._run] *)

(** One numbered line of the reply. *)
Definition slot_line (env : Env) (i : nat) (slot : Slot) : Result string :=
  start_time <- fromisoformat env (slot_start slot) ;;
  end_time <- fromisoformat env (slot_end slot) ;;
  Ok (str_int (Z.of_nat i) ++ ". " ++ strftime_HM start_time
      ++ " - " ++ strftime_HM end_time)%string.

(** The loop over [enumerate(slots, i)]. *)
Fixpoint slot_lines (env : Env) (i : nat) (slots : list Slot)
  : Result (list string) :=
  match slots with
  | [] => Ok []
  | slot :: rest =>
      line <- slot_line env i slot ;;
      more <- slot_lines env (S i) rest ;;
      Ok (line :: more)
  end.

Definition suggest_apology (date_str : string) : string :=
  ("Sorry, I couldn't find available slots for " ++ date_str
   ++ ". Please try again.")%string.

Definition suggest_nothing (date_str : string) (duration : Z) : string :=
  ("No available slots found for " ++ date_str ++ " with a "
   ++ str_int duration ++ "-minute meeting.")%string.

Definition suggest_header (date_str : string) (duration : Z) : string :=
  ("Available " ++ str_int duration ++ "-minute slots on " ++ date_str
   ++ ":" ++ newline)%string.

(** The reply, the world after the call and what the agent module has
    logged and parsed; [None] when the fuel of the sweep ran out. *)
Definition SuggestSlotsTool_run (env : Env) (P : Parsers) (fuel : nat)
  (date_str : string) (duration : Z) (w : World)
  : option (string * World * list ParseEvent) :=
  let failed e w' trace :=
    Some (suggest_apology date_str, w',
          trace ++ [LogParseError "Error suggesting slots" e]) in
  match parse_natural_date P date_str with
  | (Raise e, trace) => failed e w trace
  | (Ok target_date, trace) =>
      let trace1 := trace ++ [LogDebug "Suggesting slots"] in
      match suggest_available_slots env fuel target_date duration 9 17 w with
      | None => None
      | Some (Raise e, w1) => failed e w1 trace1
      | Some (Ok [], w1) => Some (suggest_nothing date_str duration, w1, trace1)
      | Some (Ok available_slots, w1) =>
          match slot_lines env 1 (firstn 5 available_slots) with
          | Raise e => failed e w1 trace1
          | Ok slot_info =>
              Some ((suggest_header date_str duration
                     ++ String.concat newline slot_info)%string, w1, trace1)
          end
      end
  end.

(** ** [CheckAvailabilityTool._run] *)

(** One entry of [busy_info]: the two times as the provider wrote them,
    read with [fromisoformat] and printed with [strftime]. *)
Definition busy_line (env : Env) (period : BusyPeriod) : Result string :=
  start <- fromisoformat env (replace_Z (busy_start_str period)) ;;
  end_ <- fromisoformat env (replace_Z (busy_end_str period)) ;;
  Ok (strftime_HM start ++ " - " ++ strftime_HM end_)%string.

Fixpoint busy_lines (env : Env) (periods : list BusyPeriod)
  : Result (list string) :=
  match periods with
  | [] => Ok []
  | period :: rest =>
      line <- busy_line env period ;;
      more <- busy_lines env rest ;;
      Ok (line :: more)
  end.

Definition check_apology (date_str : string) : string :=
  ("Sorry, I couldn't check your availability for " ++ date_str
   ++ ". Please try again.")%string.

Definition check_free (date_str start_time end_time : string) : string :=
  ("You are completely free on " ++ date_str ++ " from " ++ start_time
   ++ " to " ++ end_time ++ ".")%string.

Definition CheckAvailabilityTool_run (env : Env) (P : Parsers)
  (date_str start_time end_time : string) (w : World)
  : string * World * list ParseEvent :=
  let failed e w' trace :=
    (check_apology date_str, w',
     trace ++ [LogParseError "Error checking availability" e]) in
  match parse_natural_date P (date_str ++ " " ++ start_time) with
  | (Raise e, trace1) => failed e w trace1
  | (Ok start_datetime, trace1) =>
      match parse_natural_date P (date_str ++ " " ++ end_time) with
      | (Raise e, trace2) => failed e w (trace1 ++ trace2)
      | (Ok end_datetime, trace2) =>
          let trace := trace1 ++ trace2 ++ [LogDebug "Checking availability"]
          in
          match check_availability env start_datetime end_datetime w with
          | (Raise e, w1) => failed e w1 trace
          | (Ok [], w1) =>
              (check_free date_str start_time end_time, w1, trace)
          | (Ok busy_periods, w1) =>
              match busy_lines env busy_periods with
              | Raise e => failed e w1 trace
              | Ok busy_info =>
                  (("You have "
                    ++ str_int (Z.of_nat (List.length busy_periods))
                    ++ " busy periods on " ++ date_str ++ ": "
                    ++ String.concat "; " busy_info)%string, w1, trace)
              end
          end
      end
  end.

(** The same environment with another calendar time zone. *)
Definition with_timezone (tz : Timezone) (env : Env) : Env :=
  mk_env tz (calendar_id env) (isoformat env) (fromisoformat env)
         (system_offset env) (freebusy_execute env).

(** ** [GetEventsTool._run] *)

(** [datetime.fromisoformat(v)] for a value of a returned entry. *)
Definition fromisoformat_value (env : Env) (v : Json) : Result datetime :=
  match v with
  | JStr s => fromisoformat env s
  | _ => Raise (TypeError "fromisoformat: argument must be str")
  end.

(** The bullet U+2022 in UTF-8. *)
Definition bullet : string :=
  String "226"%char (String "128"%char (String "162"%char EmptyString)).

(** One entry of [event_info]; [show] prints a title that is not a
    text. *)
Definition event_line (env : Env) (show : Json -> string)
  (event : FormattedEvent) : Result string :=
  start <- fromisoformat_value env (fe_start event) ;;
  end_ <- fromisoformat_value env (fe_end event) ;;
  Ok (bullet ++ " "
      ++ match fe_title event with JStr s => s | other => show other end
      ++ " (" ++ strftime_HM start ++ " - " ++ strftime_HM end_ ++ ")")%string.

Fixpoint event_lines (env : Env) (show : Json -> string)
  (events : list FormattedEvent) : Result (list string) :=
  match events with
  | [] => Ok []
  | event :: rest =>
      line <- event_line env show event ;;
      more <- event_lines env show rest ;;
      Ok (line :: more)
  end.

Definition events_apology (date_str : string) : string :=
  ("Sorry, I couldn't retrieve your events for " ++ date_str
   ++ ". Please try again.")%string.

Definition GetEventsTool_run (env : Env) (svc : Service) (P : Parsers)
  (show : Json -> string) (date_str : string) (L : Ledger)
  : string * Ledger * list ParseEvent :=
  let failed e L' trace :=
    (events_apology date_str, L',
     trace ++ [LogParseError "Error getting events" e]) in
  match parse_natural_date P date_str with
  | (Raise e, trace) => failed e L trace
  | (Ok target_date, trace) =>
      let trace1 := trace ++ [LogDebug "Getting events for date"] in
      match get_events_for_date env svc target_date L with
      | (Raise e, L1) => failed e L1 trace1
      | (Ok [], L1) =>
          (("You have no events scheduled for " ++ date_str ++ ".")%string,
           L1, trace1)
      | (Ok events, L1) =>
          match event_lines env show events with
          | Raise e => failed e L1 trace1
          | Ok event_info =>
              (("Events for " ++ date_str ++ ":" ++ newline
                ++ String.concat newline event_info)%string, L1, trace1)
          end
      end
  end.

(** ** [CalendarAgent.process_message] *)

(** The Python values that the agent executor may hand back: [None],
    texts, tuples, lists, dicts with text keys, and any other object,
    which is true, has no [strip], cannot be indexed and prints as
    [repr]. *)
Unset Elimination Schemes.
Inductive PyObj : Type :=
| ONone
| OStr (s : string)
| OTuple (items : list PyObj)
| OList (items : list PyObj)
| ODict (fields : list (string * PyObj))
| OObj (repr : string).
Set Elimination Schemes.

Fixpoint obj_find (key : string) (fields : list (string * PyObj))
  : option PyObj :=
  match fields with
  | [] => None
  | (k, v) :: rest => if String.eqb k key then Some v else obj_find key rest
  end.

Definition truthy (o : PyObj) : bool :=
  match o with
  | ONone => false
  | OStr s => negb (String.eqb s "")
  | OTuple l | OList l => match l with [] => false | _ :: _ => true end
  | ODict f => match f with [] => false | _ :: _ => true end
  | OObj _ => true
  end.

(** The agent executor: what [invoke] answers to a message and a chat
    history of role and content pairs, and how the containers it returns
    print. *)
Record Executor : Type := mk_executor {
  invoke : string -> list (string * string) -> Result PyObj;
  container_repr : PyObj -> string
}.

(** [str(o)]. *)
Definition py_str (X : Executor) (o : PyObj) : string :=
  match o with
  | OStr s => s
  | OObj r => r
  | ONone => "None"
  | _ => container_repr X o
  end.

(** White space of one byte: tab to carriage return, the four
    separators, the space. *)
Definition narrow_space (b : N) : bool :=
  (((9 <=? b) && (b <=? 13)) || ((28 <=? b) && (b <=? 32)))%N.

(** White space of three bytes in UTF-8: U+1680, U+2000 to U+200A,
    U+2028, U+2029, U+202F, U+205F, U+3000. *)
Definition wide_space (b c d : N) : bool :=
  (((b =? 225) && (c =? 154) && (d =? 128))
   || ((b =? 226) && (c =? 128)
       && (((128 <=? d) && (d <=? 138)) || (d =? 168) || (d =? 169)
           || (d =? 175)))
   || ((b =? 226) && (c =? 129) && (d =? 159))
   || ((b =? 227) && (c =? 128) && (d =? 128)))%N.

(** Every character of a UTF-8 text is white space for [str.strip]. *)
Fixpoint all_space (l : list N) : bool :=
  match l with
  | [] => true
  | b :: rest =>
      if narrow_space b then all_space rest
      else
        match rest with
        | [] => false
        | c :: rest1 =>
            if ((b =? 194) && ((c =? 133) || (c =? 160)))%N
            then all_space rest1
            else
              match rest1 with
              | [] => false
              | d :: rest2 =>
                  if wide_space b c d then all_space rest2 else false
              end
        end
  end.

(** [not s.strip()]. *)
Definition is_blank (s : string) : bool :=
  all_space (map N_of_ascii (list_ascii_of_string s)).

(** [needle in hay]. *)
Fixpoint contains (needle hay : string) : bool :=
  String.prefix needle hay
  || match hay with
     | EmptyString => false
     | String _ rest => contains needle rest
     end.

Definition error_phrase : string :=
  "Encountered an error processing your request.".

Definition network_error : string := "Network Error".

Definition strip_error : Exception :=
  OtherError "AttributeError: object has no attribute 'strip'".

(** The part of [process_message] that reads the intermediate steps. *)
Definition steps_reply (X : Executor) (fields : list (string * PyObj))
  : Result string :=
  let steps := match obj_find "intermediate_steps" fields with
               | Some v => v
               | None => OList []
               end in
  if truthy steps then
    last_step <- match steps with
                 | OList l | OTuple l => Ok (last l ONone)
                 | OStr s =>
                     Ok (OStr (String (last (list_ascii_of_string s) " "%char)
                                      EmptyString))
                 | ODict _ => Raise (KeyError "-1")
                 | _ => Raise (TypeError "object is not subscriptable")
                 end ;;
    match last_step with
    | OTuple [_; observation] =>
        if truthy observation && negb (is_blank (py_str X observation))
        then Ok (py_str X observation)
        else Ok network_error
    | _ => Ok network_error
    end
  else Ok network_error.

(** The part of [process_message] that follows the call of the
    executor. *)
Definition reply_of (X : Executor) (response : PyObj) : Result string :=
  match response with
  | ODict fields =>
      let found := match obj_find "output" fields with
                   | Some v => v
                   | None => OStr ""
                   end in
      match (if truthy found then found else OStr "") with
      | OStr output =>
          if negb (is_blank output) && negb (contains error_phrase output)
          then Ok output
          else steps_reply X fields
      | _ => Raise strip_error
      end
  | _ => Ok network_error
  end.

Inductive AgentEvent : Type :=
| Invoked (message : string) (chat_history : list (string * string))
| AgentDebug (event : string)
| AgentError (event : string) (error : Exception).

Definition process_message (X : Executor) (message : string)
  (chat_history : option (list (string * string)))
  : string * list AgentEvent :=
  let chat_history := match chat_history with
                      | Some h => h
                      | None => []
                      end in
  if is_blank message then ("Please provide a message first.", [])
  else
    let trace := [AgentDebug "Processing message";
                  Invoked message chat_history] in
    match (response <- invoke X message chat_history ;;
           reply_of X response) with
    | Ok reply => (reply, trace)
    | Raise e =>
        (network_error, trace ++ [AgentError "Error processing message" e])
    end.

(** ** Concrete parsers and executors *)
Module SampleAgent.

(** Parsers on 2025-01-15: parsedatetime recognises "today"; dateutil
    reads a text with an explicit offset. *)
Definition parsers : Parsers :=
  mk_parsers
    (fun s => if String.eqb s "today"
              then Ok (mk_struct_time 2025 1 15 13 45 0 2 15 (-1), 1)
              else Ok (mk_struct_time 2025 1 15 13 45 0 2 15 (-1), 0))
    (fun s => if String.eqb s "2025-01-15T13:45:00+00:00"
              then Ok (Sample.utc 2025 1 15 13 45)
              else Raise (ValueError "Unknown string format")).

(** An environment that reads back the slot texts of the sample day. *)
Definition texts : list (string * datetime) :=
  map (fun hm => (Sample.isoformat (Sample.utc 2025 1 15 (fst hm) (snd hm)),
                  Sample.utc 2025 1 15 (fst hm) (snd hm)))
      [(9, 0); (9, 30); (10, 0); (10, 30); (11, 0); (11, 30); (12, 0);
       (12, 30); (13, 0); (13, 30); (14, 0); (14, 30); (15, 0); (15, 30);
       (16, 0); (16, 30); (17, 0)].

Definition free_day : Env :=
  mk_env Sample.UTC "primary" Sample.isoformat (Sample.table_parse texts)
         (fun _ => 0) (Sample.answering []).

(** An executor whose output is the error phrase and whose last step
    holds the observation of a tool. *)
Definition stumbling : Executor :=
  mk_executor
    (fun _ _ =>
       Ok (ODict [("output", OStr error_phrase);
                  ("intermediate_steps",
                   OList [OTuple [OObj "AgentAction";
                                  OStr "You have no events today."]])]))
    (fun _ => "").

End SampleAgent.

(** * Properties *)

Ltac unfold_units :=
  unfold US_PER_MINUTE, US_PER_HOUR, US_PER_DAY, US_PER_SECOND, MAXORDINAL in *.

(** ** Datetime arithmetic and comparison *)

Lemma dt_add_minutes_Ok (d d' : datetime) (n : Z) :
  dt_add_minutes d n = Ok d' -> d' = shift d (n * US_PER_MINUTE).
Proof.
  unfold dt_add_minutes, timedelta_minutes, dt_add, bind, shift.
  destruct (_ && _); [|discriminate].
  destruct (in_range _); [|discriminate].
  now intros [= <-].
Qed.

Lemma instant_shift (d : datetime) (delta : Z) :
  instant (shift d delta) = instant d + delta.
Proof. unfold instant, shift; simpl. destruct (tzinfo d); lia. Qed.

Lemma shift_shift (d : datetime) (x y : Z) :
  shift (shift d x) y = shift d (x + y).
Proof. unfold shift; simpl. f_equal. lia. Qed.

Lemma is_aware_shift (d : datetime) (delta : Z) :
  is_aware (shift d delta) = is_aware d.
Proof. reflexivity. Qed.

Lemma dt_compare_instant (test : Z -> Z -> bool) (a b : datetime) (r : bool) :
  dt_compare test a b = Ok r -> r = test (instant a) (instant b).
Proof.
  unfold dt_compare, instant.
  destruct (tzinfo a), (tzinfo b); intros [=]; congruence.
Qed.

Lemma dt_compare_aware (test : Z -> Z -> bool) (a b : datetime) :
  is_aware a = true -> is_aware b = true ->
  dt_compare test a b = Ok (test (instant a) (instant b)).
Proof.
  unfold dt_compare, instant, is_aware.
  destruct (tzinfo a), (tzinfo b); intros; congruence.
Qed.

Lemma astimezone_aware (sys : Z -> Z) (tz : Timezone) (d d' : datetime) :
  astimezone sys tz d = Ok d' -> is_aware d' = true.
Proof.
  unfold astimezone.
  destruct (in_range _); [|discriminate].
  destruct (in_range _); [|discriminate].
  now intros [= <-].
Qed.

Lemma localize_Ok (tz : Timezone) (d d' : datetime) :
  localize tz d = Ok d' ->
  is_aware d = false /\
  d' = mk_datetime (wall d) (Some (utcoffset_wall tz (wall d))).
Proof.
  unfold localize, is_aware. destruct (tzinfo d); [discriminate|].
  destruct (localizable tz d); [|discriminate].
  now intros [= <-].
Qed.

Lemma replace_hour_Ok (d d' : datetime) (h : Z) :
  replace_hour d h = Ok d' ->
  0 <= h <= 23 /\
  d' = mk_datetime (wall d / US_PER_DAY * US_PER_DAY + h * US_PER_HOUR)
                   (tzinfo d).
Proof.
  unfold replace_hour.
  destruct (0 <=? h) eqn:H0, (h <=? 23) eqn:H1; simpl; try discriminate.
  intros [= <-]. split; [lia | reflexivity].
Qed.

Lemma working_window_Ok (env : Env) (target ds de : datetime) (sh eh : Z) :
  working_window env target sh eh = Ok (ds, de) ->
  is_aware target = false /\ 0 <= sh <= 23 /\ 0 <= eh <= 23 /\
  ds = on_day env target sh 0 /\ de = on_day env target eh 0.
Proof.
  unfold working_window, bind.
  destruct (localize _ _) as [t|] eqn:Hl; [|discriminate].
  apply localize_Ok in Hl as [Hn ->].
  destruct (replace_hour _ sh) as [s|] eqn:Hs; [|discriminate].
  destruct (replace_hour _ eh) as [e|] eqn:He; [|discriminate].
  apply replace_hour_Ok in Hs as [Hsh ->].
  apply replace_hour_Ok in He as [Heh ->].
  intros [= <- <-]. unfold on_day; cbn [wall tzinfo].
  repeat split; try lia; try assumption; f_equal; lia.
Qed.

(** ** The candidate enumeration *)

Lemma candidate_count_none (step duration : Z) (ws we : datetime) :
  instant we < instant ws + duration * US_PER_MINUTE ->
  candidate_count step duration ws we = O.
Proof.
  intros H. unfold candidate_count.
  destruct (0 <=? _) eqn:E; [apply Z.leb_le in E; lia | reflexivity].
Qed.

Lemma candidate_count_next (step duration : Z) (ws we : datetime) :
  0 < step ->
  instant ws + duration * US_PER_MINUTE <= instant we ->
  candidate_count step duration ws we =
  S (candidate_count step duration (shift ws (step * US_PER_MINUTE)) we).
Proof.
  intros Hstep H. unfold candidate_count. rewrite instant_shift.
  set (x := instant we - instant ws - duration * US_PER_MINUTE).
  set (s := step * US_PER_MINUTE).
  assert (Hs : 0 < s) by (unfold s; unfold_units; lia).
  assert (Hx : 0 <= x) by (unfold x; lia).
  replace (instant we - (instant ws + s) - duration * US_PER_MINUTE)
    with (x + (-1) * s) by (unfold x; lia).
  destruct (0 <=? x) eqn:E; [|apply Z.leb_gt in E; lia].
  assert (Hq : 0 <= x / s) by (apply Z.div_pos; lia).
  rewrite Z2Nat.inj_add by lia. rewrite Nat.add_1_r. f_equal.
  destruct (0 <=? x + -1 * s) eqn:E'.
  - rewrite Z.div_add by lia. f_equal. lia.
  - apply Z.leb_gt in E'. rewrite Z.div_small by lia. reflexivity.
Qed.

Lemma candidates_from_In (step duration : Z) (n : nat) :
  forall (start c e : datetime),
    In (c, e) (candidates_from n step duration start) ->
    exists k : nat,
      (k < n)%nat /\
      c = shift start (Z.of_nat k * (step * US_PER_MINUTE)) /\
      e = shift c (duration * US_PER_MINUTE).
Proof.
  induction n as [|n IH]; intros start c e Hin; [destruct Hin|].
  destruct Hin as [Heq | Hin].
  - injection Heq as <- <-. exists O. repeat split; [lia|].
    unfold shift. destruct start; simpl. f_equal. lia.
  - apply IH in Hin as (k & Hk & -> & ->).
    exists (S k). repeat split; [lia|].
    rewrite shift_shift. f_equal. lia.
Qed.

(** Every candidate starts at or after the window start, at a whole number
    of steps from it, is [duration] minutes long and ends by the window
    end. *)
Lemma candidates_In (step duration : Z) (ws we c e : datetime) :
  0 < step ->
  In (c, e) (candidates step duration ws we) ->
  exists k : Z,
    0 <= k /\
    c = shift ws (k * (step * US_PER_MINUTE)) /\
    e = shift c (duration * US_PER_MINUTE) /\
    instant ws <= instant c /\ instant e <= instant we.
Proof.
  intros Hstep Hin. unfold candidates in Hin.
  apply candidates_from_In in Hin as (k & Hk & -> & ->).
  exists (Z.of_nat k). rewrite !instant_shift.
  assert (Hs : 0 < step * US_PER_MINUTE) by (unfold_units; lia).
  repeat split; try lia; try nia.
  unfold candidate_count in Hk.
  set (x := instant we - instant ws - duration * US_PER_MINUTE) in *.
  destruct (0 <=? x) eqn:E; [|lia].
  apply Z.leb_le in E.
  assert (Hq : 0 <= x / (step * US_PER_MINUTE)) by (apply Z.div_pos; lia).
  assert (Hk' : Z.of_nat k <= x / (step * US_PER_MINUTE)) by lia.
  assert (Hm := Z.mul_div_le x (step * US_PER_MINUTE) Hs).
  assert (Z.of_nat k * (step * US_PER_MINUTE) <= x) by nia.
  unfold x in *. lia.
Qed.


(** ** One iteration of the sweep *)

Section Sweep.

Variable env : Env.
Variable busy_periods : list BusyPeriod.
Variable duration : Z.
Variable day_end : datetime.

Lemma sweep_unfold (fuel : nat) (current_time : datetime) (acc : list Slot) :
  sweep env (S fuel) busy_periods duration day_end current_time acc =
  match dt_add_minutes current_time duration with
  | Raise e => Some (Raise e)
  | Ok slot_end =>
      match dt_le slot_end day_end with
      | Raise e => Some (Raise e)
      | Ok false => Some (Ok acc)
      | Ok true =>
          match scan_busy env busy_periods current_time slot_end with
          | Raise e => Some (Raise e)
          | Ok is_available =>
              match dt_add_minutes current_time 30 with
              | Raise e => Some (Raise e)
              | Ok next =>
                  sweep env fuel busy_periods duration day_end next
                    (if is_available
                     then acc ++ [slot_dict env duration current_time slot_end]
                     else acc)
              end
          end
      end
  end.
Proof.
  simpl. destruct (dt_add_minutes current_time duration) as [t|]; simpl;
    [|reflexivity].
  destruct (dt_le t day_end) as [[|]|]; try reflexivity.
  destruct (scan_busy _ _ _ _) as [b|]; simpl; [|reflexivity].
  destruct (dt_add_minutes current_time 30); reflexivity.
Qed.

Lemma iterations_bound_next (current_time : datetime) :
  instant current_time + duration * US_PER_MINUTE <= instant day_end ->
  iterations_bound duration day_end current_time =
  S (iterations_bound duration day_end
       (shift current_time (30 * US_PER_MINUTE))).
Proof. intros H. apply candidate_count_next; [lia | exact H]. Qed.

Lemma sweep_enough_fuel (fuel : nat) :
  forall (current_time : datetime) (acc : list Slot),
    (iterations_bound duration day_end current_time < fuel)%nat ->
    exists r,
      sweep env fuel busy_periods duration day_end current_time acc = Some r.
Proof.
  induction fuel as [|fuel IH]; intros cur acc Hlt; [lia|].
  rewrite sweep_unfold.
  destruct (dt_add_minutes cur duration) as [t|] eqn:Ht; [|eauto].
  destruct (dt_le t day_end) as [[|]|] eqn:Hle; eauto.
  destruct (scan_busy _ _ _ _) as [b|]; [|eauto].
  destruct (dt_add_minutes cur 30) as [next|] eqn:Hn; [|eauto].
  apply IH.
  apply dt_add_minutes_Ok in Ht, Hn. subst t next.
  apply dt_compare_instant in Hle. symmetry in Hle.
  apply Z.leb_le in Hle. rewrite instant_shift in Hle.
  rewrite iterations_bound_next in Hlt by exact Hle. lia.
Qed.

Lemma sweep_more_fuel (fuel : nat) :
  forall (current_time : datetime) (acc : list Slot) r,
    sweep env fuel busy_periods duration day_end current_time acc = Some r ->
    sweep env (S fuel) busy_periods duration day_end current_time acc = Some r.
Proof.
  induction fuel as [|fuel IH]; intros cur acc r H; [discriminate|].
  rewrite sweep_unfold in H. rewrite sweep_unfold.
  destruct (dt_add_minutes cur duration) as [t|]; [|exact H].
  destruct (dt_le t day_end) as [[|]|]; try exact H.
  destruct (scan_busy _ _ _ _) as [b|]; [|exact H].
  destruct (dt_add_minutes cur 30) as [next|]; [|exact H].
  now apply IH.
Qed.

Lemma sweep_fuel_le (fuel fuel' : nat) (current_time : datetime)
  (acc : list Slot) r :
  (fuel <= fuel')%nat ->
  sweep env fuel busy_periods duration day_end current_time acc = Some r ->
  sweep env fuel' busy_periods duration day_end current_time acc = Some r.
Proof.
  induction 1 as [|m Hle IH]; intros H; [exact H|].
  apply sweep_more_fuel. now apply IH.
Qed.

End Sweep.

(** ** The sweep returns the free candidates *)

Section SweepResult.

Variable env : Env.
Variable busy_periods : list BusyPeriod.
Variable duration : Z.
Variable day_end : datetime.

Lemma suggestSlots_spec_stop (current_time : datetime) :
  instant day_end < instant current_time + duration * US_PER_MINUTE ->
  suggestSlots_spec env 30 duration busy_periods current_time day_end = [].
Proof.
  intros H. unfold suggestSlots_spec, candidates.
  now rewrite candidate_count_none.
Qed.

Lemma suggestSlots_spec_next (current_time : datetime) :
  instant current_time + duration * US_PER_MINUTE <= instant day_end ->
  suggestSlots_spec env 30 duration busy_periods current_time day_end =
  (let iv := (current_time, shift current_time (duration * US_PER_MINUTE)) in
   if is_free env busy_periods iv then [to_slot env duration iv] else [])
  ++ suggestSlots_spec env 30 duration busy_periods
       (shift current_time (30 * US_PER_MINUTE)) day_end.
Proof.
  intros H. unfold suggestSlots_spec, candidates.
  rewrite candidate_count_next by (lia || exact H).
  cbn [candidates_from filter].
  destruct (is_free _ _ _); reflexivity.
Qed.

(** When the sweep returns, its result is what it had collected followed
    by the free candidates from [current_time] on, in order. *)
Lemma sweep_candidates (fuel : nat) :
  forall (current_time : datetime) (acc slots : list Slot),
    sweep env fuel busy_periods duration day_end current_time acc
    = Some (Ok slots) ->
    slots = acc ++ suggestSlots_spec env 30 duration busy_periods
                     current_time day_end.
Proof.
  induction fuel as [|fuel IH]; intros cur acc slots H; [discriminate|].
  rewrite sweep_unfold in H.
  destruct (dt_add_minutes cur duration) as [t|] eqn:Ht; [|discriminate].
  apply dt_add_minutes_Ok in Ht. subst t.
  destruct (dt_le _ day_end) as [[|]|] eqn:Hle; try discriminate.
  - apply dt_compare_instant in Hle. symmetry in Hle.
    apply Z.leb_le in Hle. rewrite instant_shift in Hle.
    destruct (scan_busy _ _ _ _) as [b|] eqn:Hscan; [|discriminate].
    destruct (dt_add_minutes cur 30) as [next|] eqn:Hn; [|discriminate].
    apply dt_add_minutes_Ok in Hn. subst next.
    apply IH in H. rewrite H. rewrite (suggestSlots_spec_next cur Hle).
    unfold is_free, to_slot; cbn [fst snd]. rewrite Hscan.
    destruct b; [rewrite <- app_assoc|]; reflexivity.
  - apply dt_compare_instant in Hle. symmetry in Hle.
    apply Z.leb_gt in Hle. rewrite instant_shift in Hle.
    injection H as <-. rewrite suggestSlots_spec_stop by exact Hle.
    now rewrite app_nil_r.
Qed.

End SweepResult.

(** ** The scan of the busy list *)

Lemma busy_interval_aware (env : Env) (bp : BusyPeriod) (bs be : datetime) :
  busy_interval env bp = Ok (bs, be) ->
  is_aware bs = true /\ is_aware be = true.
Proof.
  unfold busy_interval, bind.
  destruct (fromisoformat env _) as [s0|]; [|discriminate].
  destruct (fromisoformat env _) as [e0|]; [|discriminate].
  destruct (astimezone _ _ s0) as [s1|] eqn:Hs; [|discriminate].
  destruct (astimezone _ _ e0) as [e1|] eqn:He; [|discriminate].
  intros [= <- <-]. split; eapply astimezone_aware; eassumption.
Qed.

(** A scan that leaves [is_available] true has read every busy period and
    found the overlap test false on each. *)
Lemma scan_busy_true (env : Env) (current_time slot_end : datetime) :
  forall busy_periods : list BusyPeriod,
    scan_busy env busy_periods current_time slot_end = Ok true ->
    Forall (fun bp =>
              exists bs be,
                busy_interval env bp = Ok (bs, be) /\
                overlap_test current_time slot_end bs be = Ok false)
           busy_periods.
Proof.
  induction busy_periods as [|bp rest IH]; intros H; [constructor|].
  simpl in H. unfold bind in H.
  destruct (busy_interval env bp) as [[bs be]|] eqn:Hiv; [|discriminate].
  cbn [fst snd] in H.
  destruct (overlap_test _ _ _ _) as [[|]|] eqn:Ho; try discriminate.
  constructor; [exists bs, be; now split | now apply IH].
Qed.

Lemma overlap_test_aware (a b c d : datetime) :
  is_aware a = true -> is_aware b = true ->
  is_aware c = true -> is_aware d = true ->
  overlap_test a b c d
  = Ok ((instant a <? instant d) && (instant c <? instant b)).
Proof.
  intros Ha Hb Hc Hd. unfold overlap_test, dt_lt, dt_gt, bind.
  rewrite (dt_compare_aware _ a d Ha Hd), (dt_compare_aware _ b c Hb Hc).
  rewrite Z.gtb_ltb. destruct (instant a <? instant d); reflexivity.
Qed.

Lemma no_overlap_no_shared_instant (a b c d : datetime) :
  (instant a <? instant d) && (instant c <? instant b) = false ->
  ~ share_instant a b c d.
Proof.
  intros H (t & Hab & Hcd).
  apply andb_false_iff in H as [H | H]; apply Z.ltb_ge in H; lia.
Qed.

(** ** What a successful call has done *)

Lemma check_availability_Ok (env : Env) (s e : datetime) (w w1 : World)
  (busy_periods : list BusyPeriod) :
  check_availability env s e w = (Ok busy_periods, w1) ->
  provider_fetch env s e w = Ok busy_periods /\
  w1 = logger (LogInfo "Availability checked" (List.length busy_periods))
              (send (freebusy_body env s e) w).
Proof.
  unfold check_availability, provider_fetch.
  destruct (bind _ _) as [b|[]]; intros [= <- <-] || intros [=].
  split; reflexivity.
Qed.

Lemma suggest_available_slots_Ok (env : Env) (fuel : nat) (target : datetime)
  (duration sh eh : Z) (w w' : World) (slots : list Slot) :
  suggest_available_slots env fuel target duration sh eh w
  = Some (Ok slots, w') ->
  exists ds de busy_periods,
    working_window env target sh eh = Ok (ds, de) /\
    provider_fetch env ds de w = Ok busy_periods /\
    requests w' = requests w ++ [freebusy_body env ds de] /\
    sweep env fuel busy_periods duration de ds [] = Some (Ok slots).
Proof.
  unfold suggest_available_slots, suggest_failed.
  destruct (working_window _ _ _ _) as [[ds de]|]; [|discriminate].
  destruct (check_availability _ _ _ _) as [[busy|] w1] eqn:Hc;
    [|discriminate].
  apply check_availability_Ok in Hc as [Hf ->].
  destruct (sweep _ _ _ _ _ _ _) as [[sl|]|] eqn:Hs; try discriminate.
  intros [= <- <-]. exists ds, de, busy. repeat split; auto.
Qed.

(** The slots of a successful call are the free candidates of the
    window, taken at 30-minute steps. *)
Lemma suggest_available_slots_candidates (env : Env) (fuel : nat)
  (target : datetime) (duration sh eh : Z) (w w' : World)
  (slots : list Slot) :
  suggest_available_slots env fuel target duration sh eh w
  = Some (Ok slots, w') ->
  exists ds de busy_periods,
    working_window env target sh eh = Ok (ds, de) /\
    provider_fetch env ds de w = Ok busy_periods /\
    requests w' = requests w ++ [freebusy_body env ds de] /\
    slots = suggestSlots_spec env 30 duration busy_periods ds de.
Proof.
  intros H.
  apply suggest_available_slots_Ok in H as (ds & de & busy & Hw & Hf & Hr & H).
  exists ds, de, busy. repeat split; auto.
  now apply sweep_candidates in H.
Qed.

Lemma suggestSlots_spec_In (env : Env) (step duration : Z)
  (busy_periods : list BusyPeriod) (ws we : datetime) (s : Slot) :
  In s (suggestSlots_spec env step duration busy_periods ws we) ->
  exists c e,
    s = slot_dict env duration c e /\
    In (c, e) (candidates step duration ws we) /\
    scan_busy env busy_periods c e = Ok true.
Proof.
  unfold suggestSlots_spec. intros H.
  apply in_map_iff in H as ([c e] & <- & H).
  apply filter_In in H as [Hin Hfree].
  exists c, e. repeat split; auto.
  unfold is_free in Hfree; cbn [fst snd] in Hfree.
  destruct (scan_busy _ _ _ _) as [[|]|]; congruence.
Qed.

(** ** Slot freedom *)

(** C1. Slot freedom: when [suggest_available_slots] returns, it has sent
    exactly one query to the provider, and every returned slot is a
    candidate [current_time, slot_end) that overlaps no interval of the
    busy list fetched by that query, each busy interval taken after its
    conversion to the calendar time zone. *)
Theorem slot_freedom (env : Env) (fuel : nat) (target_date : datetime)
  (duration start_hour end_hour : Z) (w w' : World) (slots : list Slot) :
  suggest_available_slots env fuel target_date duration start_hour end_hour w
  = Some (Ok slots, w') ->
  exists day_start day_end busy_periods,
    working_window env target_date start_hour end_hour
    = Ok (day_start, day_end) /\
    provider_fetch env day_start day_end w = Ok busy_periods /\
    requests w' = requests w ++ [freebusy_body env day_start day_end] /\
    Forall (fun s =>
              exists current_time slot_end,
                s = slot_dict env duration current_time slot_end /\
                slot_free env busy_periods current_time slot_end)
           slots.
Proof.
  intros H.
  apply suggest_available_slots_candidates in H
    as (ds & de & busy & Hw & Hf & Hr & ->).
  exists ds, de, busy. repeat split; auto.
  apply Forall_forall. intros s Hs.
  apply suggestSlots_spec_In in Hs as (c & e & -> & Hin & Hscan).
  exists c, e. split; [reflexivity|].
  apply candidates_In in Hin as (k & _ & -> & -> & _); [|lia].
  apply working_window_Ok in Hw as (_ & _ & _ & -> & _).
  apply scan_busy_true in Hscan.
  unfold slot_free. eapply Forall_impl; [|exact Hscan].
  intros bp (bs & be & Hiv & Ho). exists bs, be. repeat split; auto.
  apply busy_interval_aware in Hiv as [Hbs Hbe].
  rewrite overlap_test_aware in Ho by auto.
  injection Ho as Ho. now apply no_overlap_no_shared_instant.
Qed.

Lemma slot_freedom_witness :
  exists slots w',
    suggest_available_slots Sample.one_meeting 20 Sample.target 60 9 12
      Sample.world0 = Some (Ok slots, w') /\
    exists day_start day_end busy_periods,
      working_window Sample.one_meeting Sample.target 9 12
      = Ok (day_start, day_end) /\
      provider_fetch Sample.one_meeting day_start day_end Sample.world0
      = Ok busy_periods /\
      requests w' = requests Sample.world0
                    ++ [freebusy_body Sample.one_meeting day_start day_end] /\
      Forall (fun s =>
                exists current_time slot_end,
                  s = slot_dict Sample.one_meeting 60 current_time slot_end /\
                  slot_free Sample.one_meeting busy_periods
                            current_time slot_end)
             slots.
Proof.
  eexists. eexists. split; [vm_compute; reflexivity|].
  apply (slot_freedom Sample.one_meeting 20 Sample.target 60 9 12
           Sample.world0).
  vm_compute; reflexivity.
Defined.

(** ** Slot containment *)

(** C2. Slot containment: every slot returned by
    [suggest_available_slots] starts at or after the start of the
    working-hours window and ends at or before its end, and is a whole
    slot: its end is its start plus the requested duration (so that, for
    a duration that is not negative, the slot lies between the two window
    bounds). *)
Theorem slot_containment (env : Env) (fuel : nat) (target_date : datetime)
  (duration start_hour end_hour : Z) (w w' : World) (slots : list Slot) :
  suggest_available_slots env fuel target_date duration start_hour end_hour w
  = Some (Ok slots, w') ->
  exists day_start day_end,
    working_window env target_date start_hour end_hour
    = Ok (day_start, day_end) /\
    Forall (fun s =>
              exists current_time slot_end,
                s = slot_dict env duration current_time slot_end /\
                duration_minutes s = duration /\
                instant day_start <= instant current_time /\
                instant slot_end <= instant day_end /\
                slot_end = shift current_time (duration * US_PER_MINUTE) /\
                (0 <= duration -> instant current_time <= instant slot_end))
           slots.
Proof.
  intros H.
  apply suggest_available_slots_candidates in H
    as (ds & de & busy & Hw & _ & _ & ->).
  exists ds, de. split; [exact Hw|].
  apply Forall_forall. intros s Hs.
  apply suggestSlots_spec_In in Hs as (c & e & -> & Hin & _).
  exists c, e.
  apply candidates_In in Hin as (k & _ & _ & He & Hlo & Hhi); [|lia].
  repeat split; auto.
  intros Hd. subst e. rewrite instant_shift. unfold_units. lia.
Qed.

Lemma slot_containment_witness :
  exists slots w',
    suggest_available_slots Sample.one_meeting 20 Sample.target 60 9 12
      Sample.world0 = Some (Ok slots, w') /\
    exists day_start day_end,
      working_window Sample.one_meeting Sample.target 9 12
      = Ok (day_start, day_end) /\
      Forall (fun s =>
                exists current_time slot_end,
                  s = slot_dict Sample.one_meeting 60 current_time slot_end /\
                  duration_minutes s = 60 /\
                  instant day_start <= instant current_time /\
                  instant slot_end <= instant day_end /\
                  slot_end = shift current_time (60 * US_PER_MINUTE) /\
                  (0 <= 60 -> instant current_time <= instant slot_end))
             slots.
Proof.
  eexists. eexists. split; [vm_compute; reflexivity|].
  eapply (slot_containment Sample.one_meeting 20 Sample.target 60 9 12
            Sample.world0).
  vm_compute; reflexivity.
Defined.

(** ** The overlap test *)

Lemma dt_compare_alike (test : Z -> Z -> bool) (a b : datetime) :
  is_aware a = is_aware b ->
  dt_compare test a b = Ok (test (instant a) (instant b)).
Proof.
  unfold dt_compare, instant, is_aware.
  destruct (tzinfo a), (tzinfo b); intros; congruence.
Qed.

(** C3. Half-open overlap: on datetimes that are all timezone-aware, as
    the sweep compares them (or all naive), the overlap test between
    [a, b) and [c, d) is true iff a < d and c < b; it gives the same
    answer with the two intervals exchanged; and it is false when the
    first interval ends exactly where the second starts. *)
Theorem overlap_half_open (a b c d : datetime) :
  is_aware b = is_aware a -> is_aware c = is_aware a ->
  is_aware d = is_aware a ->
  overlap_test a b c d
  = Ok ((instant a <? instant d) && (instant c <? instant b)) /\
  overlap_test a b c d = overlap_test c d a b /\
  (instant b = instant c -> overlap_test a b c d = Ok false).
Proof.
  intros Hb Hc Hd.
  assert (Hab : overlap_test a b c d
                = Ok ((instant a <? instant d) && (instant c <? instant b))).
  { unfold overlap_test, dt_lt, dt_gt, bind.
    rewrite (dt_compare_alike _ a d), (dt_compare_alike _ b c) by congruence.
    rewrite Z.gtb_ltb. destruct (instant a <? instant d); reflexivity. }
  assert (Hcd : overlap_test c d a b
                = Ok ((instant c <? instant b) && (instant a <? instant d))).
  { unfold overlap_test, dt_lt, dt_gt, bind.
    rewrite (dt_compare_alike _ c b), (dt_compare_alike _ d a) by congruence.
    rewrite Z.gtb_ltb. destruct (instant c <? instant b); reflexivity. }
  rewrite Hab, Hcd. repeat split.
  - f_equal. apply andb_comm.
  - intros ->. now rewrite Z.ltb_irrefl, andb_false_r.
Qed.

Lemma overlap_half_open_witness :
  let a := Sample.utc 2025 1 15 9 0 in
  let b := Sample.utc 2025 1 15 10 0 in
  let c := Sample.utc 2025 1 15 10 0 in
  let d := Sample.utc 2025 1 15 11 0 in
  overlap_test a b c d
  = Ok ((instant a <? instant d) && (instant c <? instant b)) /\
  overlap_test a b c d = overlap_test c d a b /\
  (instant b = instant c -> overlap_test a b c d = Ok false).
Proof.
  intros a b c d.
  apply (overlap_half_open a b c d); reflexivity.
Defined.

(** ** Termination of the sweep *)

Lemma sweep_result (env : Env) (busy_periods : list BusyPeriod)
  (duration : Z) (day_end current_time : datetime) (acc : list Slot) :
  exists r,
    forall fuel : nat,
      (iterations_bound duration day_end current_time < fuel)%nat ->
      sweep env fuel busy_periods duration day_end current_time acc = Some r.
Proof.
  set (n := iterations_bound duration day_end current_time).
  destruct (sweep_enough_fuel env busy_periods duration day_end (S n)
              current_time acc) as [r Hr]; [unfold n; lia|].
  exists r. intros fuel Hlt.
  eapply sweep_fuel_le; [|exact Hr]. lia.
Qed.

(** C10. Termination of the slot sweep: for every environment, busy list,
    integer duration (zero and negative included), window end and
    starting time, the candidate loop leaves after at most
    [iterations_bound] runs of its body, with a result that no longer
    depends on the fuel; and so does [suggest_available_slots] for every
    target date and pair of hours. *)
Theorem sweep_terminates (env : Env) (duration : Z) :
  (forall (busy_periods : list BusyPeriod) (day_end current_time : datetime)
          (acc : list Slot),
      exists r,
        forall fuel : nat,
          (iterations_bound duration day_end current_time < fuel)%nat ->
          sweep env fuel busy_periods duration day_end current_time acc
          = Some r) /\
  (forall (target_date : datetime) (start_hour end_hour : Z) (w : World),
      exists (n : nat) r,
        forall fuel : nat,
          (n < fuel)%nat ->
          suggest_available_slots env fuel target_date duration
            start_hour end_hour w = Some r).
Proof.
  split; [intros; apply sweep_result|].
  intros target sh eh w. unfold suggest_available_slots.
  destruct (working_window _ _ _ _) as [[ds de]|]; [|exists O; eauto].
  destruct (check_availability _ _ _ _) as [[busy|] w1]; [|exists O; eauto].
  destruct (sweep_result env busy duration de ds []) as [r Hr].
  exists (iterations_bound duration de ds).
  destruct r as [sl|e]; eexists; intros fuel Hlt; rewrite (Hr fuel Hlt);
    reflexivity.
Qed.

(** ** Order and number of the candidates *)


Lemma candidates_from_length (step duration : Z) (n : nat) :
  forall start : datetime,
    List.length (candidates_from n step duration start) = n.
Proof.
  induction n as [|n IH]; intros start; [reflexivity|].
  cbn [candidates_from List.length]. now rewrite IH.
Qed.


Lemma on_day_span (env : Env) (target : datetime) (h1 m1 h2 m2 : Z) :
  instant (on_day env target h2 m2) - instant (on_day env target h1 m1)
  = (h2 - h1) * US_PER_HOUR + (m2 - m1) * US_PER_MINUTE.
Proof. unfold instant, on_day; cbn [wall tzinfo]. unfold_units. lia. Qed.





(** ** A free day *)

Lemma dt_add_minutes_in_range (d : datetime) (n : Z) :
  0 <= n -> 0 <= wall d ->
  wall d + n * US_PER_MINUTE < MAXORDINAL * US_PER_DAY ->
  dt_add_minutes d n = Ok (shift d (n * US_PER_MINUTE)).
Proof.
  intros Hn Hd Hr. unfold dt_add_minutes, timedelta_minutes, bind.
  assert (H0 : 0 <= n / 1440) by (apply Z.div_pos; lia).
  assert (H1 : n / 1440 < MAXORDINAL).
  { apply Z.div_lt_upper_bound; [lia|]. unfold_units. lia. }
  assert (E1 : (- MAX_DELTA_DAYS <=? n / 1440) = true)
    by (apply Z.leb_le; unfold MAX_DELTA_DAYS; lia).
  assert (E2 : (n / 1440 <=? MAX_DELTA_DAYS) = true)
    by (apply Z.leb_le; unfold MAX_DELTA_DAYS, MAXORDINAL in *; lia).
  assert (E3 : (0 <=? wall d + n * US_PER_MINUTE) = true)
    by (apply Z.leb_le; unfold_units; lia).
  assert (E4 : (wall d + n * US_PER_MINUTE <? MAXORDINAL * US_PER_DAY) = true)
    by (apply Z.ltb_lt; exact Hr).
  rewrite E1, E2. cbn [andb]. unfold dt_add, in_range.
  rewrite E3, E4. reflexivity.
Qed.

Lemma dt_compare_same_tz (test : Z -> Z -> bool) (a b : datetime) :
  tzinfo a = tzinfo b ->
  dt_compare test a b = Ok (test (instant a) (instant b)).
Proof.
  unfold dt_compare, instant. intros ->. now destruct (tzinfo b).
Qed.

Lemma instant_diff_same_tz (a b : datetime) :
  tzinfo a = tzinfo b -> instant a - instant b = wall a - wall b.
Proof. unfold instant. intros ->. destruct (tzinfo b); lia. Qed.

(** With nothing booked and every datetime of the sweep in range, the
    sweep returns all the candidates. *)
Lemma sweep_no_busy (env : Env) (duration : Z) (day_end : datetime) :
  0 <= duration ->
  wall day_end + 30 * US_PER_MINUTE < MAXORDINAL * US_PER_DAY ->
  forall (n fuel : nat) (current_time : datetime) (acc : list Slot),
    candidate_count 30 duration current_time day_end = n ->
    (n < fuel)%nat ->
    tzinfo current_time = tzinfo day_end ->
    0 <= wall current_time ->
    wall current_time + duration * US_PER_MINUTE
    <= wall day_end + 30 * US_PER_MINUTE ->
    sweep env fuel [] duration day_end current_time acc
    = Some (Ok (acc ++ map (to_slot env duration)
                         (candidates_from n 30 duration current_time))).
Proof.
  intros Hd Hend. induction n as [|n IH];
    intros fuel cur acc Hn Hfuel Htz Hlo Hhi;
    (destruct fuel as [|fuel]; [lia|]); rewrite sweep_unfold;
    rewrite dt_add_minutes_in_range by lia;
    unfold dt_le; rewrite dt_compare_same_tz by exact Htz;
    rewrite instant_shift;
    pose proof (instant_diff_same_tz cur day_end Htz) as Hdiff;
    destruct (instant cur + duration * US_PER_MINUTE <=? instant day_end)
      eqn:E.
  - apply Z.leb_le in E.
    rewrite candidate_count_next in Hn by (lia || exact E). discriminate.
  - cbn [candidates_from map]. now rewrite app_nil_r.
  - apply Z.leb_le in E.
    rewrite candidate_count_next in Hn by (lia || exact E).
    injection Hn as Hn.
    cbn [scan_busy].
    rewrite (dt_add_minutes_in_range cur 30) by (unfold_units; lia).
    rewrite (IH fuel) by
      (try exact Hn; try lia; try exact Htz; cbn [shift wall];
       unfold_units; lia).
    cbn [candidates_from map]. rewrite <- app_assoc. reflexivity.
  - apply Z.leb_gt in E.
    rewrite candidate_count_none in Hn by lia. discriminate.
Qed.

Lemma working_window_naive (env : Env) (target : datetime) (sh eh : Z) :
  is_aware target = false -> localizable (timezone env) target = true ->
  0 <= sh <= 23 -> 0 <= eh <= 23 ->
  working_window env target sh eh
  = Ok (on_day env target sh 0, on_day env target eh 0).
Proof.
  intros Hn Hloc Hs He. unfold working_window, localize, is_aware in *.
  destruct (tzinfo target); [discriminate|]. rewrite Hloc. cbn [bind].
  unfold replace_hour.
  replace ((0 <=? sh) && (sh <=? 23)) with true
    by (symmetry; apply andb_true_iff; split; apply Z.leb_le; lia).
  replace ((0 <=? eh) && (eh <=? 23)) with true
    by (symmetry; apply andb_true_iff; split; apply Z.leb_le; lia).
  cbn [bind wall tzinfo]. unfold on_day.
  f_equal. f_equal; (f_equal; unfold_units; lia).
Qed.

Lemma check_availability_fetched (env : Env) (s e : datetime) (w : World)
  (busy_periods : list BusyPeriod) :
  provider_fetch env s e w = Ok busy_periods ->
  check_availability env s e w
  = (Ok busy_periods,
     logger (LogInfo "Availability checked" (List.length busy_periods))
            (send (freebusy_body env s e) w)).
Proof.
  unfold provider_fetch, check_availability. now intros ->.
Qed.

Lemma day_in_range (x : Z) :
  in_range x = true ->
  0 <= x / US_PER_DAY * US_PER_DAY /\
  x / US_PER_DAY * US_PER_DAY + US_PER_DAY <= MAXORDINAL * US_PER_DAY.
Proof.
  unfold in_range. intros H. apply andb_true_iff in H as [H0 H1].
  apply Z.leb_le in H0. apply Z.ltb_lt in H1.
  assert (Hq0 : 0 <= x / US_PER_DAY) by (apply Z.div_pos; unfold_units; lia).
  assert (Hq1 : x / US_PER_DAY < MAXORDINAL).
  { apply Z.div_lt_upper_bound; [unfold_units; lia|]. lia. }
  unfold_units. lia.
Qed.

Lemma on_day_shift (env : Env) (target : datetime) (h m k : Z) :
  shift (on_day env target h m) (k * US_PER_MINUTE)
  = on_day env target h (m + k).
Proof. unfold shift, on_day; cbn [wall tzinfo]. f_equal. lia. Qed.

Lemma on_day_carry (env : Env) (target : datetime) (h m : Z) :
  on_day env target h (m + 60) = on_day env target (h + 1) m.
Proof. unfold on_day. f_equal. unfold_units. lia. Qed.

Lemma on_day_eq (env : Env) (target : datetime) (h m h' m' : Z) :
  h * 60 + m = h' * 60 + m' ->
  on_day env target h m = on_day env target h' m'.
Proof. intros H. unfold on_day. f_equal. unfold_units. lia. Qed.

(** C5. A free day, as the code sweeps it: for a naive target date in
    range that the calendar zone can localize, with no busy interval, a
    duration of 60 minutes and the window 09:00-17:00, the step being the
    constant 30 minutes, [suggest_available_slots] returns exactly the 15
    slots 09:00-10:00, 09:30-10:30, ..., 16:00-17:00, the last one ending
    exactly at the window end. *)
Theorem free_day_slots (env : Env) (fuel : nat) (target_date : datetime)
  (w : World) :
  is_aware target_date = false ->
  in_range (wall target_date) = true ->
  localizable (timezone env) target_date = true ->
  provider_fetch env (on_day env target_date 9 0) (on_day env target_date 17 0)
                 w = Ok [] ->
  (15 < fuel)%nat ->
  exists w',
    suggest_available_slots env fuel target_date 60 9 17 w
    = Some (Ok (map (hour_long_slot env target_date) half_hourly_starts), w')
    /\ List.length (map (hour_long_slot env target_date) half_hourly_starts)
       = 15%nat.
Proof.
  intros Hn Hr Hloc Hf Hfuel. unfold suggest_available_slots.
  rewrite working_window_naive by (assumption || lia).
  rewrite (check_availability_fetched _ _ _ _ _ Hf).
  apply day_in_range in Hr as [Hlo Hhi].
  rewrite (sweep_no_busy env 60 (on_day env target_date 17 0)
             ltac:(lia)
             ltac:(unfold on_day; cbn [wall]; unfold_units; lia)
             15%nat fuel (on_day env target_date 9 0) []).
  - eexists. split; [|reflexivity].
    do 3 f_equal.
    cbn [candidates_from map half_hourly_starts app].
    rewrite !on_day_shift.
    unfold to_slot, hour_long_slot, slot_dict. cbn [fst snd].
    repeat (apply f_equal2;
            [ f_equal; f_equal; apply on_day_eq; reflexivity | ]).
    reflexivity.
  - unfold candidate_count. rewrite on_day_span. reflexivity.
  - exact Hfuel.
  - reflexivity.
  - unfold on_day; cbn [wall]; unfold_units; lia.
  - unfold on_day; cbn [wall]; unfold_units; lia.
Qed.

Lemma free_day_slots_witness :
  is_aware Sample.target = false /\
  in_range (wall Sample.target) = true /\
  localizable (timezone Sample.free_day) Sample.target = true /\
  exists w',
    suggest_available_slots Sample.free_day 16 Sample.target 60 9 17
      Sample.world0
    = Some (Ok (map (hour_long_slot Sample.free_day Sample.target)
                    half_hourly_starts), w')
    /\ List.length (map (hour_long_slot Sample.free_day Sample.target)
                        half_hourly_starts) = 15%nat.
Proof.
  split; [reflexivity|]. split; [reflexivity|]. split; [reflexivity|].
  apply (free_day_slots Sample.free_day 16 Sample.target Sample.world0);
    [reflexivity | reflexivity | reflexivity | reflexivity | lia].
Defined.

(** C5 as stated fails on the code: on a free day from 09:00 to 17:00
    with 60-minute slots the call returns 15 slots, not 7, and not the
    hourly slots 09:00-10:00, 10:00-11:00, ..., 16:00-17:00 alone. *)
Lemma free_day_slots_counterexample :
  exists slots w',
    suggest_available_slots Sample.free_day 20 Sample.target 60 9 17
      Sample.world0 = Some (Ok slots, w') /\
    List.length slots = 15%nat /\
    List.length slots <> 7%nat /\
    slots <> map (hour_long_slot Sample.free_day Sample.target) hourly_starts.
Proof.
  eexists. eexists. split; [vm_compute; reflexivity|].
  split; [reflexivity|]. split; [discriminate|].
  intros H. apply (f_equal (@List.length Slot)) in H. discriminate H.
Qed.

(** ** [check_availability] hands over the provider's list *)

(** C6. What [check_availability] returns, as the code does it: it sends
    one freebusy query for the window and returns the busy list that the
    provider gives for the calendar, unchanged and in the provider's
    order; it converts, filters and sorts nothing. *)
Theorem check_availability_raw (env : Env) (start_date end_date : datetime)
  (w : World) (busy_periods : list BusyPeriod) :
  provider_fetch env start_date end_date w = Ok busy_periods ->
  exists w',
    check_availability env start_date end_date w = (Ok busy_periods, w') /\
    requests w' = requests w ++ [freebusy_body env start_date end_date].
Proof.
  intros H. rewrite (check_availability_fetched _ _ _ _ _ H).
  eexists. split; reflexivity.
Qed.

Lemma check_availability_raw_witness :
  let ws := Sample.utc 2025 1 15 9 0 in
  let we := Sample.utc 2025 1 15 12 0 in
  let listed := [Sample.busy "2025-01-15T14:00:00Z" "2025-01-15T15:00:00Z";
                 Sample.busy "2025-01-15T10:00:00Z" "2025-01-15T11:00:00Z"] in
  provider_fetch Sample.unsorted_day ws we Sample.world0 = Ok listed /\
  exists w',
    check_availability Sample.unsorted_day ws we Sample.world0
    = (Ok listed, w') /\
    requests w' = requests Sample.world0
                  ++ [freebusy_body Sample.unsorted_day ws we].
Proof.
  intros ws we listed. split; [reflexivity|].
  apply (check_availability_raw Sample.unsorted_day ws we Sample.world0 listed).
  reflexivity.
Defined.

(** C6 as stated fails on the code: for the window 09:00-12:00 the
    provider lists a meeting at 14:00 before one at 10:00, and
    [check_availability] returns the two in that order; the start times
    are not ascending, and the first interval does not overlap the
    window. *)
Lemma check_availability_counterexample :
  let ws := Sample.utc 2025 1 15 9 0 in
  let we := Sample.utc 2025 1 15 12 0 in
  exists busy_periods w' ivs,
    check_availability Sample.unsorted_day ws we Sample.world0
    = (Ok busy_periods, w') /\
    busy_intervals Sample.unsorted_day busy_periods = Ok ivs /\
    starts_ascending ivs = false /\
    forallb (overlaps_window ws we) ivs = false.
Proof.
  intros ws we. do 3 eexists.
  split; [vm_compute; reflexivity|].
  split; [vm_compute; reflexivity|].
  split; vm_compute; reflexivity.
Qed.

(** ** Provider failure *)

(** C7. Provider failure: when the provider fails on the query of
    [check_availability], the call raises that same error after this one
    query, and so does every call of [suggest_available_slots] whose
    window is the queried one: the error is not swallowed, the query is
    not sent again, and no slot list is returned. *)
Theorem provider_failure_propagates (env : Env)
  (day_start day_end : datetime) (w : World) (err : Exception) :
  freebusy_execute env (List.length (requests w))
                   (freebusy_body env day_start day_end) = Raise err ->
  (exists w',
      check_availability env day_start day_end w = (Raise err, w') /\
      requests w' = requests w ++ [freebusy_body env day_start day_end]) /\
  (forall (fuel : nat) (target_date : datetime)
          (duration start_hour end_hour : Z),
      working_window env target_date start_hour end_hour
      = Ok (day_start, day_end) ->
      exists w',
        suggest_available_slots env fuel target_date duration
          start_hour end_hour w = Some (Raise err, w') /\
        requests w' = requests w ++ [freebusy_body env day_start day_end]).
Proof.
  intros H.
  assert (Hc : exists w',
             check_availability env day_start day_end w = (Raise err, w') /\
             requests w' = requests w ++ [freebusy_body env day_start day_end]).
  { unfold check_availability. rewrite H. cbn [bind].
    destruct err; eexists; split; reflexivity. }
  split; [exact Hc|].
  intros fuel target duration sh eh Hw.
  destruct Hc as (w1 & Hc & Hr).
  unfold suggest_available_slots. rewrite Hw, Hc.
  eexists. split; [reflexivity|exact Hr].
Qed.

Lemma provider_failure_propagates_witness :
  let ws := on_day Sample.provider_down Sample.target 9 0 in
  let we := on_day Sample.provider_down Sample.target 17 0 in
  let err := HttpError "503 Service Unavailable" in
  (exists w',
      check_availability Sample.provider_down ws we Sample.world0
      = (Raise err, w') /\
      requests w' = requests Sample.world0
                    ++ [freebusy_body Sample.provider_down ws we]) /\
  (forall (fuel : nat) (target_date : datetime)
          (duration start_hour end_hour : Z),
      working_window Sample.provider_down target_date start_hour end_hour
      = Ok (ws, we) ->
      exists w',
        suggest_available_slots Sample.provider_down fuel target_date duration
          start_hour end_hour Sample.world0 = Some (Raise err, w') /\
        requests w' = requests Sample.world0
                      ++ [freebusy_body Sample.provider_down ws we]).
Proof.
  intros ws we err.
  apply (provider_failure_propagates Sample.provider_down ws we Sample.world0
           err).
  reflexivity.
Defined.

(** ** The parser chain *)

Lemma datetime_new_naive (y mo d h mi s : Z) (dt : datetime) :
  datetime_new y mo d h mi s = Ok dt -> is_aware dt = false.
Proof.
  unfold datetime_new. destruct (_ && _); [|discriminate].
  now intros [= <-].
Qed.

Lemma natural_strategy_naive (P : Parsers) (date_str : string) (d : datetime) :
  natural_strategy P date_str = Ok d -> is_aware d = false.
Proof.
  unfold natural_strategy, bind.
  destruct (cal_parse P date_str) as [[ts st]|]; [|discriminate].
  cbn [fst snd]. destruct (st =? 0); [discriminate|].
  apply datetime_new_naive.
Qed.

Lemma parse_natural_date_natural (P : Parsers) (date_str : string)
  (d : datetime) :
  natural_strategy P date_str = Ok d ->
  parse_natural_date P date_str
  = (Ok d, [CalParse date_str; LogDebug "parsedatetime succeeded"]).
Proof.
  unfold natural_strategy, parse_natural_date, bind.
  destruct (cal_parse P date_str) as [[ts st]|]; [|discriminate].
  cbn [fst snd]. destruct (st =? 0); [discriminate|].
  now intros ->.
Qed.

Lemma parse_natural_date_fallback (P : Parsers) (date_str : string)
  (e : Exception) :
  natural_strategy P date_str = Raise e ->
  fst (parse_natural_date P date_str) = dateutil_parse P date_str /\
  In (DateutilParse date_str) (snd (parse_natural_date P date_str)).
Proof.
  unfold natural_strategy, parse_natural_date, parse_handler, bind.
  destruct (cal_parse P date_str) as [[ts st]|].
  - cbn [fst snd]. destruct (st =? 0).
    + intros _. destruct (dateutil_parse P date_str); cbn [fst snd];
        (split; [reflexivity | simpl; auto]).
    + intros ->. cbn [fst snd]. split; [reflexivity | simpl; auto].
  - intros _. cbn [fst snd]. split; [reflexivity | simpl; auto].
Qed.

(** C9. Parser chain order: [parse_natural_date] is the chain of the
    natural-language strategy followed by the strict parser, first success
    winning.  It calls parsedatetime first; when that strategy succeeds
    its datetime is the result and dateutil is not called at all; when it
    fails, and only then, the result is what dateutil gives. *)
Theorem parser_chain_order (P : Parsers) (date_str : string) :
  fst (parse_natural_date P date_str)
  = tryParse_chain [natural_strategy P; dateutil_parse P] date_str /\
  (exists rest,
      snd (parse_natural_date P date_str) = CalParse date_str :: rest) /\
  (forall d,
      natural_strategy P date_str = Ok d ->
      fst (parse_natural_date P date_str) = Ok d /\
      ~ In (DateutilParse date_str) (snd (parse_natural_date P date_str))) /\
  (forall e,
      natural_strategy P date_str = Raise e ->
      fst (parse_natural_date P date_str) = dateutil_parse P date_str /\
      In (DateutilParse date_str) (snd (parse_natural_date P date_str))).
Proof.
  repeat split.
  - cbn [tryParse_chain].
    destruct (natural_strategy P date_str) as [d|e] eqn:Hn.
    + now rewrite (parse_natural_date_natural _ _ _ Hn).
    + destruct (parse_natural_date_fallback _ _ _ Hn) as [-> _].
      now destruct (dateutil_parse P date_str).
  - unfold parse_natural_date, parse_handler.
    destruct (cal_parse P date_str) as [[ts st]|]; [|eexists; reflexivity].
    destruct (st =? 0).
    + destruct (dateutil_parse P date_str); eexists; reflexivity.
    + destruct (datetime_of_struct ts); eexists; reflexivity.
  - now rewrite (parse_natural_date_natural _ _ _ H).
  - rewrite (parse_natural_date_natural _ _ _ H). cbn [snd].
    intros [Hin | [Hin | []]]; discriminate.
  - now apply parse_natural_date_fallback in H.
  - now apply parse_natural_date_fallback in H.
Qed.

(** ** Naive and aware datetimes *)

Lemma candidates_aware (step duration : Z) (ws we c e : datetime) :
  is_aware ws = true ->
  In (c, e) (candidates step duration ws we) ->
  is_aware c = true /\ is_aware e = true.
Proof.
  intros Ha Hin. unfold candidates in Hin.
  apply candidates_from_In in Hin as (k & _ & -> & ->).
  now rewrite !is_aware_shift.
Qed.

(** The two guards of [book_event] succeed exactly when each naive time
    can be localized, and then give the times as sent. *)
Lemma book_event_times_Ok (tz : Timezone) (s e s' e' : datetime) :
  book_event_times tz s e = Ok (s', e') ->
  s' = sent_time tz s /\ e' = sent_time tz e /\
  is_aware s' = true /\ is_aware e' = true /\
  (is_aware s = false -> localizable tz s = true) /\
  (is_aware e = false -> localizable tz e = true).
Proof.
  unfold book_event_times, localize, sent_time, is_aware.
  destruct (tzinfo s) eqn:Hs, (tzinfo e) eqn:He; cbn [bind];
    repeat match goal with
           | |- context [localizable ?z ?d] =>
               destruct (localizable z d); cbn [bind]; try discriminate
           end;
    intros [= <- <-]; cbn [tzinfo]; rewrite ?Hs, ?He;
    repeat split; try reflexivity; discriminate.
Qed.

Lemma book_event_times_localizable (tz : Timezone) (s e : datetime) :
  (is_aware s = false -> localizable tz s = true) ->
  (is_aware e = false -> localizable tz e = true) ->
  book_event_times tz s e = Ok (sent_time tz s, sent_time tz e).
Proof.
  unfold book_event_times, localize, sent_time, is_aware.
  intros Hs He.
  destruct (tzinfo s), (tzinfo e); cbn [bind];
    rewrite ?(Hs eq_refl), ?(He eq_refl); reflexivity.
Qed.

(** C8. Where the time zone comes in, as the code does it: the datetime
    that [parse_natural_date] returns from its natural-language strategy
    is naive; the time zone is attached by the calendar layer.
    [suggest_available_slots] takes a naive target date and localizes it,
    so the window bounds and every candidate of the sweep are aware; the
    busy bounds are aware after [astimezone]; and [book_event] localizes a
    naive start or end time, so when its two guards succeed both times
    are aware, with their wall-clock reading unchanged. *)
Theorem timezone_attached_by_calendar_layer :
  (forall (P : Parsers) (date_str : string) (d : datetime),
      natural_strategy P date_str = Ok d ->
      fst (parse_natural_date P date_str) = Ok d /\ is_aware d = false) /\
  (forall (env : Env) (target_date day_start day_end : datetime)
          (start_hour end_hour : Z),
      working_window env target_date start_hour end_hour
      = Ok (day_start, day_end) ->
      is_aware target_date = false /\
      is_aware day_start = true /\ is_aware day_end = true /\
      forall (step duration : Z) (c e : datetime),
        In (c, e) (candidates step duration day_start day_end) ->
        is_aware c = true /\ is_aware e = true) /\
  (forall (env : Env) (bp : BusyPeriod) (busy_start busy_end : datetime),
      busy_interval env bp = Ok (busy_start, busy_end) ->
      is_aware busy_start = true /\ is_aware busy_end = true) /\
  (forall (tz : Timezone)
          (start_time end_time start_time' end_time' : datetime),
      book_event_times tz start_time end_time
      = Ok (start_time', end_time') ->
      is_aware start_time' = true /\ is_aware end_time' = true /\
      wall start_time' = wall start_time /\
      wall end_time' = wall end_time).
Proof.
  repeat apply conj.
  - intros P s d H. split.
    + now rewrite (parse_natural_date_natural _ _ _ H).
    + now apply natural_strategy_naive in H.
  - intros env target ds de sh eh H.
    apply working_window_Ok in H as (Hn & _ & _ & -> & ->).
    split; [exact Hn|]. split; [reflexivity|]. split; [reflexivity|].
    intros step duration c e Hin.
    apply (candidates_aware step duration _ _ c e) in Hin;
      [exact Hin | reflexivity].
  - intros env bp bs be H. now apply busy_interval_aware in H.
  - intros tz s e s' e' H.
    apply book_event_times_Ok in H as (-> & -> & Hs & He & _).
    split; [exact Hs|]. split; [exact He|].
    unfold sent_time. destruct (tzinfo s), (tzinfo e); split; reflexivity.
Qed.

(** C8 as stated fails on the code: for "tomorrow at 3pm", which
    parsedatetime recognises, [parse_natural_date] returns a datetime
    without time zone information. *)
Lemma naive_past_the_normalizer :
  exists d trace,
    parse_natural_date Sample.parsers "tomorrow at 3pm" = (Ok d, trace) /\
    tzinfo d = None /\ is_aware d = false.
Proof.
  do 2 eexists. split; [vm_compute; reflexivity|].
  split; reflexivity.
Qed.

(** * Further properties of the engine *)

(** ** The scan and the order of the busy list *)

Lemma readable_aware (env : Env) (bp : BusyPeriod) (iv : datetime * datetime) :
  busy_interval env bp = Ok iv ->
  is_aware (fst iv) = true /\ is_aware (snd iv) = true.
Proof. destruct iv as [bs be]. apply busy_interval_aware. Qed.

(** On a list whose periods can all be read, the scan answers whether no
    period overlaps the candidate. *)
Lemma scan_busy_readable (env : Env) (c e : datetime) :
  is_aware c = true -> is_aware e = true ->
  forall l : list BusyPeriod,
    Forall (readable env) l ->
    scan_busy env l c e = Ok (negb (existsb (hits env c e) l)).
Proof.
  intros Hc He. induction 1 as [|bp l [iv Hiv] _ IH]; [reflexivity|].
  cbn [scan_busy existsb]. unfold hits at 1. rewrite Hiv. cbn [bind].
  destruct (readable_aware _ _ _ Hiv) as [Hs Hf].
  rewrite overlap_test_aware by assumption. cbn [bind].
  destruct (_ && _); [reflexivity | exact IH].
Qed.

Lemma existsb_Permutation {A : Type} (f : A -> bool) (l l' : list A) :
  Permutation l l' -> existsb f l = existsb f l'.
Proof.
  intros HP.
  destruct (existsb f l) eqn:E, (existsb f l') eqn:E'; try reflexivity.
  - apply existsb_exists in E as (x & Hin & Hx).
    assert (existsb f l' = true)
      by (apply existsb_exists; exists x; split;
          [eapply Permutation_in; eassumption | exact Hx]).
    congruence.
  - apply existsb_exists in E' as (x & Hin & Hx).
    assert (existsb f l = true)
      by (apply existsb_exists; exists x; split;
          [eapply Permutation_in; [apply Permutation_sym|]; eassumption
          | exact Hx]).
    congruence.
Qed.

Lemma scan_busy_Permutation (env : Env) (c e : datetime)
  (l l' : list BusyPeriod) :
  is_aware c = true -> is_aware e = true ->
  Forall (readable env) l -> Permutation l l' ->
  scan_busy env l' c e = scan_busy env l c e.
Proof.
  intros Hc He Hr HP.
  rewrite (scan_busy_readable env c e Hc He l Hr).
  rewrite (scan_busy_readable env c e Hc He l')
    by (eapply Permutation_Forall; eassumption).
  f_equal. f_equal. symmetry. now apply existsb_Permutation.
Qed.

(** X1. Order of the busy list: when every busy period of the list can
    be read, the sweep from an aware starting time gives the same outcome
    (slots, error or fuel exhaustion) on every permutation of the list. *)
Theorem sweep_order_invariant (env : Env) (l l' : list BusyPeriod)
  (duration : Z) (day_end : datetime) (fuel : nat) :
  Forall (readable env) l -> Permutation l l' ->
  forall (current_time : datetime) (acc : list Slot),
    is_aware current_time = true ->
    sweep env fuel l' duration day_end current_time acc
    = sweep env fuel l duration day_end current_time acc.
Proof.
  intros Hr HP. induction fuel as [|fuel IH]; intros cur acc Ha;
    [reflexivity|].
  rewrite !sweep_unfold.
  destruct (dt_add_minutes cur duration) as [t|] eqn:Ht; [|reflexivity].
  destruct (dt_le t day_end) as [[|]|]; try reflexivity.
  apply dt_add_minutes_Ok in Ht. subst t.
  rewrite (scan_busy_Permutation env cur _ l l') by auto.
  destruct (scan_busy env l cur _) as [b|]; [|reflexivity].
  destruct (dt_add_minutes cur 30) as [next|] eqn:Hn; [|reflexivity].
  apply dt_add_minutes_Ok in Hn. subst next.
  now apply IH.
Qed.

Lemma sweep_order_invariant_witness :
  let l := [Sample.busy "2025-01-15T14:00:00Z" "2025-01-15T15:00:00Z";
            Sample.busy "2025-01-15T10:00:00Z" "2025-01-15T11:00:00Z"] in
  let l' := [Sample.busy "2025-01-15T10:00:00Z" "2025-01-15T11:00:00Z";
             Sample.busy "2025-01-15T14:00:00Z" "2025-01-15T15:00:00Z"] in
  sweep Sample.free_day 20 l' 60 (Sample.utc 2025 1 15 17 0)
        (Sample.utc 2025 1 15 9 0) []
  = sweep Sample.free_day 20 l 60 (Sample.utc 2025 1 15 17 0)
          (Sample.utc 2025 1 15 9 0) [].
Proof.
  intros l l'.
  apply (sweep_order_invariant Sample.free_day l l' 60
           (Sample.utc 2025 1 15 17 0) 20).
  - repeat constructor; eexists; vm_compute; reflexivity.
  - apply perm_swap.
  - reflexivity.
Defined.

(** X2. The scan stops at the first overlap: when the first busy period
    can be read and overlaps the candidate, the candidate is rejected
    whatever follows in the list, readable or not; when the first period
    cannot be read, the scan raises that error. *)
Theorem scan_busy_first (env : Env) (bp : BusyPeriod) (rest : list BusyPeriod)
  (c e : datetime) :
  is_aware c = true -> is_aware e = true ->
  (forall bs be,
      busy_interval env bp = Ok (bs, be) ->
      instant c < instant be -> instant bs < instant e ->
      scan_busy env (bp :: rest) c e = Ok false) /\
  (forall err,
      busy_interval env bp = Raise err ->
      scan_busy env (bp :: rest) c e = Raise err).
Proof.
  intros Hc He. split.
  - intros bs be Hiv H1 H2. cbn [scan_busy]. rewrite Hiv. cbn [bind fst snd].
    destruct (busy_interval_aware _ _ _ _ Hiv) as [Hs Hf].
    rewrite overlap_test_aware by assumption. cbn [bind].
    apply Z.ltb_lt in H1, H2. now rewrite H1, H2.
  - intros err Hiv. cbn [scan_busy]. now rewrite Hiv.
Qed.

Lemma scan_busy_first_witness :
  let c := Sample.utc 2025 1 15 10 0 in
  let e := Sample.utc 2025 1 15 11 0 in
  (forall rest bs be,
      busy_interval Sample.free_day
        (Sample.busy "2025-01-15T10:30:00Z" "2025-01-15T12:00:00Z")
      = Ok (bs, be) ->
      instant c < instant be -> instant bs < instant e ->
      scan_busy Sample.free_day
        (Sample.busy "2025-01-15T10:30:00Z" "2025-01-15T12:00:00Z" :: rest)
        c e = Ok false) /\
  (forall rest err,
      busy_interval Sample.free_day (Sample.busy "yesterday" "today")
      = Raise err ->
      scan_busy Sample.free_day (Sample.busy "yesterday" "today" :: rest) c e
      = Raise err).
Proof.
  intros c e. split.
  - intros rest.
    apply (scan_busy_first Sample.free_day _ rest c e); reflexivity.
  - intros rest.
    apply (scan_busy_first Sample.free_day _ rest c e); reflexivity.
Defined.

(** ** Busy lists and the slots they leave *)

(** X3. A meeting over the whole window: when a call succeeds with a
    positive duration and the fetched busy list holds a period that
    starts by the window start and ends at or after the window end, no
    slot is returned. *)
Theorem full_window_conflict (env : Env) (fuel : nat) (target_date : datetime)
  (duration start_hour end_hour : Z) (w w' : World) (slots : list Slot)
  (busy_periods : list BusyPeriod) (bp : BusyPeriod)
  (busy_start busy_end : datetime) :
  suggest_available_slots env fuel target_date duration start_hour end_hour w
  = Some (Ok slots, w') ->
  provider_fetch env (on_day env target_date start_hour 0)
                 (on_day env target_date end_hour 0) w = Ok busy_periods ->
  In bp busy_periods ->
  busy_interval env bp = Ok (busy_start, busy_end) ->
  instant busy_start <= instant (on_day env target_date start_hour 0) ->
  instant (on_day env target_date end_hour 0) <= instant busy_end ->
  0 < duration ->
  slots = [].
Proof.
  intros H Hf Hin Hiv Hlo Hhi Hd.
  apply suggest_available_slots_candidates in H
    as (ds & de & busy & Hw & Hf' & _ & ->).
  apply working_window_Ok in Hw as (_ & _ & _ & -> & ->).
  rewrite Hf in Hf'. injection Hf' as <-.
  destruct (suggestSlots_spec env 30 duration busy_periods _ _)
    as [|s rest] eqn:E; [reflexivity|].
  assert (Hs : In s (suggestSlots_spec env 30 duration busy_periods
                       (on_day env target_date start_hour 0)
                       (on_day env target_date end_hour 0)))
    by (rewrite E; left; reflexivity).
  apply suggestSlots_spec_In in Hs as (c & e & _ & Hc & Hscan).
  assert (Haw : is_aware c = true /\ is_aware e = true)
    by (apply (candidates_aware 30 duration _ _ c e) in Hc;
        [exact Hc | reflexivity]).
  destruct Haw as [Hac Hae].
  apply candidates_In in Hc as (k & _ & _ & He & Hge & Hle); [|lia].
  apply scan_busy_true in Hscan.
  rewrite Forall_forall in Hscan.
  destruct (Hscan bp Hin) as (bs & be & Hiv' & Ho).
  rewrite Hiv in Hiv'. injection Hiv' as <- <-.
  destruct (busy_interval_aware _ _ _ _ Hiv) as [Hs1 Hs2].
  rewrite overlap_test_aware in Ho by assumption.
  injection Ho as Ho. subst e. rewrite instant_shift in *.
  apply andb_false_iff in Ho as [Ho | Ho]; apply Z.ltb_ge in Ho;
    unfold_units; lia.
Qed.

(** X4. More busy periods never add slots: if the scan accepts a
    candidate against a busy list, it accepts it against every list whose
    periods all occur in that one; so every slot that a sweep returns for
    the larger list is among the free candidates of the smaller one. *)
Theorem fewer_busy_more_slots (env : Env) (l l' : list BusyPeriod)
  (duration : Z) (day_start day_end : datetime) (fuel : nat)
  (slots : list Slot) :
  incl l l' ->
  sweep env fuel l' duration day_end day_start [] = Some (Ok slots) ->
  incl slots (suggestSlots_spec env 30 duration l day_start day_end).
Proof.
  intros Hincl H. apply sweep_candidates in H. subst slots. cbn [app].
  intros s Hs. apply suggestSlots_spec_In in Hs as (c & e & -> & Hc & Hscan).
  unfold suggestSlots_spec. apply in_map_iff. exists (c, e).
  split; [reflexivity|]. apply filter_In. split; [exact Hc|].
  unfold is_free; cbn [fst snd].
  apply scan_busy_true in Hscan. rewrite Forall_forall in Hscan.
  assert (Hl : scan_busy env l c e = Ok true).
  { clear Hc. induction l as [|bp l IH]; [reflexivity|].
    destruct (Hscan bp (Hincl bp (or_introl eq_refl)))
      as (bs & be & Hiv & Ho).
    cbn [scan_busy]. rewrite Hiv. cbn [bind fst snd]. rewrite Ho.
    cbn [bind]. apply IH. intros x Hx. apply Hincl. now right. }
  now rewrite Hl.
Qed.

Lemma full_window_conflict_witness :
  exists slots w',
    suggest_available_slots Sample.booked_day 20 Sample.target 60 9 17
      Sample.world0 = Some (Ok slots, w') /\
    slots = [].
Proof.
  eexists. eexists. split; [vm_compute; reflexivity|].
  eapply (full_window_conflict Sample.booked_day 20 Sample.target 60 9 17
            Sample.world0 _ _
            [Sample.busy "2025-01-15T09:00:00Z" "2025-01-15T17:00:00Z"]
            (Sample.busy "2025-01-15T09:00:00Z" "2025-01-15T17:00:00Z")
            (Sample.utc 2025 1 15 9 0) (Sample.utc 2025 1 15 17 0)).
  - vm_compute; reflexivity.
  - reflexivity.
  - left; reflexivity.
  - reflexivity.
  - vm_compute; discriminate.
  - vm_compute; discriminate.
  - lia.
Defined.

Lemma fewer_busy_more_slots_witness :
  let m1 := Sample.busy "2025-01-15T10:00:00Z" "2025-01-15T10:30:00Z" in
  let m2 := Sample.busy "2025-01-15T14:00:00Z" "2025-01-15T15:00:00Z" in
  let ds := Sample.utc 2025 1 15 9 0 in
  let de := Sample.utc 2025 1 15 17 0 in
  exists slots,
    sweep Sample.free_day 20 [m2; m1] 60 de ds [] = Some (Ok slots) /\
    incl slots (suggestSlots_spec Sample.free_day 30 60 [m1] ds de).
Proof.
  intros m1 m2 ds de. eexists. split; [vm_compute; reflexivity|].
  apply (fewer_busy_more_slots Sample.free_day [m1] [m2; m1] 60 ds de 20).
  - intros x [<- | []]. right. left. reflexivity.
  - vm_compute; reflexivity.
Defined.

(** ** Calls that end before or without the sweep *)




(** X6. A duration longer than the window: for a naive in-range target
    date that the calendar zone can localize, valid hours and a duration
    (not negative) that exceeds the window length while the window start
    plus the duration is still a datetime, the call succeeds with no
    slot, after its one query, whatever the provider listed: the busy
    periods are not even read. *)
Theorem duration_exceeds_window (env : Env) (fuel : nat)
  (target_date : datetime) (duration start_hour end_hour : Z) (w : World)
  (busy_periods : list BusyPeriod) :
  (0 < fuel)%nat ->
  is_aware target_date = false ->
  in_range (wall target_date) = true ->
  localizable (timezone env) target_date = true ->
  0 <= start_hour <= 23 -> 0 <= end_hour <= 23 ->
  provider_fetch env (on_day env target_date start_hour 0)
                 (on_day env target_date end_hour 0) w = Ok busy_periods ->
  (end_hour - start_hour) * 60 < duration ->
  0 <= duration ->
  wall (on_day env target_date start_hour 0) + duration * US_PER_MINUTE
  < MAXORDINAL * US_PER_DAY ->
  exists w',
    suggest_available_slots env fuel target_date duration
      start_hour end_hour w = Some (Ok [], w') /\
    requests w' = requests w
                  ++ [freebusy_body env (on_day env target_date start_hour 0)
                                        (on_day env target_date end_hour 0)].
Proof.
  intros Hfuel Hn Hr Hloc Hs He Hf Hlong Hd Hmax.
  unfold suggest_available_slots.
  rewrite working_window_naive by assumption.
  rewrite (check_availability_fetched _ _ _ _ _ Hf).
  destruct fuel as [|fuel]; [lia|]. rewrite sweep_unfold.
  apply day_in_range in Hr as [Hlo Hhi].
  rewrite dt_add_minutes_in_range;
    [ | lia | unfold on_day; cbn [wall]; unfold_units; lia | exact Hmax ].
  unfold dt_le. rewrite dt_compare_same_tz by reflexivity.
  rewrite instant_shift.
  pose proof (on_day_span env target_date start_hour 0 end_hour 0) as Hspan.
  assert (E : (instant (on_day env target_date start_hour 0)
               + duration * US_PER_MINUTE
               <=? instant (on_day env target_date end_hour 0)) = false)
    by (apply Z.leb_gt; unfold_units; lia).
  rewrite E. eexists. split; reflexivity.
Qed.

Lemma duration_exceeds_window_witness :
  exists w',
    suggest_available_slots Sample.one_meeting 1 Sample.target 600 9 17
      Sample.world0 = Some (Ok [], w') /\
    requests w'
    = requests Sample.world0
      ++ [freebusy_body Sample.one_meeting
            (on_day Sample.one_meeting Sample.target 9 0)
            (on_day Sample.one_meeting Sample.target 17 0)].
Proof.
  eapply (duration_exceeds_window Sample.one_meeting 1 Sample.target 600 9 17
            Sample.world0);
    try reflexivity; try lia; vm_compute; intuition discriminate.
Defined.

Lemma lookup_calendar_absent (id : string) (resp : FreeBusyResponse) :
  (forall busy, ~ In (id, busy) resp) ->
  lookup_calendar id resp = Raise (KeyError id).
Proof.
  induction resp as [|[k b] rest IH]; intros H; [reflexivity|].
  cbn [lookup_calendar]. destruct (String.eqb k id) eqn:E.
  - apply String.eqb_eq in E. subst k. exfalso. apply (H b). now left.
  - apply IH. intros busy Hin. apply (H busy). now right.
Qed.

(** X7. A response without the calendar: when the provider answers but
    its answer has no entry for the configured calendar,
    [check_availability] raises [KeyError] for the calendar id after its
    one query and logs nothing about it (only an [HttpError] is logged
    there); [suggest_available_slots] raises the same error and logs
    it. *)
Theorem missing_calendar (env : Env) (start_date end_date : datetime)
  (w : World) (resp : FreeBusyResponse) :
  freebusy_execute env (List.length (requests w))
                   (freebusy_body env start_date end_date) = Ok resp ->
  (forall busy, ~ In (calendar_id env, busy) resp) ->
  check_availability env start_date end_date w
  = (Raise (KeyError (calendar_id env)),
     send (freebusy_body env start_date end_date) w) /\
  log (send (freebusy_body env start_date end_date) w) = log w /\
  (forall fuel target_date duration start_hour end_hour,
      working_window env target_date start_hour end_hour
      = Ok (start_date, end_date) ->
      suggest_available_slots env fuel target_date duration
        start_hour end_hour w
      = Some (Raise (KeyError (calendar_id env)),
              logger (LogError "Failed to suggest available slots"
                               (KeyError (calendar_id env)))
                     (send (freebusy_body env start_date end_date) w))).
Proof.
  intros Hx Habs.
  assert (Hc : check_availability env start_date end_date w
               = (Raise (KeyError (calendar_id env)),
                  send (freebusy_body env start_date end_date) w)).
  { unfold check_availability. rewrite Hx. cbn [bind].
    now rewrite (lookup_calendar_absent _ _ Habs). }
  split; [exact Hc|]. split; [reflexivity|].
  intros fuel target duration sh eh Hw.
  unfold suggest_available_slots. now rewrite Hw, Hc.
Qed.

Lemma missing_calendar_witness :
  let ws := on_day Sample.wrong_calendar Sample.target 9 0 in
  let we := on_day Sample.wrong_calendar Sample.target 17 0 in
  check_availability Sample.wrong_calendar ws we Sample.world0
  = (Raise (KeyError "primary"),
     send (freebusy_body Sample.wrong_calendar ws we) Sample.world0) /\
  log (send (freebusy_body Sample.wrong_calendar ws we) Sample.world0)
  = log Sample.world0 /\
  (forall fuel target_date duration start_hour end_hour,
      working_window Sample.wrong_calendar target_date start_hour end_hour
      = Ok (ws, we) ->
      suggest_available_slots Sample.wrong_calendar fuel target_date duration
        start_hour end_hour Sample.world0
      = Some (Raise (KeyError "primary"),
              logger (LogError "Failed to suggest available slots"
                               (KeyError "primary"))
                     (send (freebusy_body Sample.wrong_calendar ws we)
                           Sample.world0))).
Proof.
  intros ws we.
  apply (missing_calendar Sample.wrong_calendar ws we Sample.world0
           [("team", [])]).
  - reflexivity.
  - intros busy [H | []]. discriminate H.
Defined.

(** X8. A free day in general: for a naive in-range target date that
    the calendar zone can localize, hours
    0 <= start_hour <= end_hour <= 23, a duration between 0 and the
    window length and an empty busy list, the call succeeds and returns
    floor((window minutes - duration) / 30) + 1 slots. *)
Theorem free_day_count (env : Env) (fuel : nat) (target_date : datetime)
  (duration start_hour end_hour : Z) (w : World) :
  is_aware target_date = false ->
  in_range (wall target_date) = true ->
  localizable (timezone env) target_date = true ->
  0 <= start_hour -> start_hour <= end_hour -> end_hour <= 23 ->
  0 <= duration <= (end_hour - start_hour) * 60 ->
  provider_fetch env (on_day env target_date start_hour 0)
                 (on_day env target_date end_hour 0) w = Ok [] ->
  (Z.to_nat (((end_hour - start_hour) * 60 - duration) / 30 + 1) < fuel)%nat ->
  exists slots w',
    suggest_available_slots env fuel target_date duration
      start_hour end_hour w = Some (Ok slots, w') /\
    List.length slots
    = Z.to_nat (((end_hour - start_hour) * 60 - duration) / 30 + 1).
Proof.
  intros Hn Hr Hloc Hs Hse He Hd Hf Hfuel.
  unfold suggest_available_slots.
  rewrite working_window_naive by (assumption || lia).
  rewrite (check_availability_fetched _ _ _ _ _ Hf).
  apply day_in_range in Hr as [Hlo Hhi].
  pose proof (on_day_span env target_date start_hour 0 end_hour 0) as Hspan.
  set (n := Z.to_nat (((end_hour - start_hour) * 60 - duration) / 30 + 1))
    in *.
  assert (Hcount : candidate_count 30 duration
                     (on_day env target_date start_hour 0)
                     (on_day env target_date end_hour 0) = n).
  { unfold candidate_count. rewrite Hspan.
    replace ((end_hour - start_hour) * US_PER_HOUR + (0 - 0) * US_PER_MINUTE
             - duration * US_PER_MINUTE)
      with (((end_hour - start_hour) * 60 - duration) * US_PER_MINUTE)
      by (unfold_units; lia).
    replace (0 <=? _) with true
      by (symmetry; apply Z.leb_le; unfold_units; lia).
    rewrite Z.div_mul_cancel_r by (unfold_units; lia). reflexivity. }
  rewrite (sweep_no_busy env duration (on_day env target_date end_hour 0)
             ltac:(lia)
             ltac:(unfold on_day; cbn [wall]; unfold_units; lia)
             n fuel (on_day env target_date start_hour 0) []
             Hcount Hfuel eq_refl
             ltac:(unfold on_day; cbn [wall]; unfold_units; lia)
             ltac:(unfold on_day; cbn [wall]; unfold_units; lia)).
  do 2 eexists. split; [reflexivity|].
  cbn [app]. now rewrite length_map, candidates_from_length.
Qed.

Lemma free_day_count_witness :
  exists slots w',
    suggest_available_slots Sample.free_day 20 Sample.target 45 8 12
      Sample.world0 = Some (Ok slots, w') /\
    List.length slots = Z.to_nat (((12 - 8) * 60 - 45) / 30 + 1).
Proof.
  apply (free_day_count Sample.free_day 20 Sample.target 45 8 12
           Sample.world0);
    try reflexivity; try lia; vm_compute; lia.
Defined.

(** ** Reading the provider's texts *)

Lemma replace_Z_app (a b : string) :
  replace_Z (a ++ b) = (replace_Z a ++ replace_Z b)%string.
Proof.
  induction a as [|c a IH]; [reflexivity|].
  cbn [String.append replace_Z]. rewrite IH.
  destruct (Ascii.eqb c "Z"); reflexivity.
Qed.

(** X9. The text replacement before parsing: every letter Z of the text
    becomes +00:00, wherever it stands, so the result holds no Z; a text
    without Z is left as it is; and a text ending in Z ends in +00:00
    instead. *)
Theorem replace_Z_spec :
  (forall s, ~ In "Z"%char (list_ascii_of_string (replace_Z s))) /\
  (forall s, ~ In "Z"%char (list_ascii_of_string s) -> replace_Z s = s) /\
  (forall s, replace_Z (s ++ "Z") = (replace_Z s ++ "+00:00")%string).
Proof.
  repeat split.
  - induction s as [|c s IH]; [intros []|].
    cbn [replace_Z]. destruct (Ascii.eqb c "Z") eqn:E.
    + cbn. intros [H | [H | [H | [H | [H | [H | H]]]]]];
        try discriminate H. now apply IH.
    + cbn. intros [H | H]; [|now apply IH].
      subst c. now rewrite Ascii.eqb_refl in E.
  - induction s as [|c s IH]; [reflexivity|].
    cbn. intros H. destruct (Ascii.eqb c "Z") eqn:E.
    + apply Ascii.eqb_eq in E. exfalso. apply H. now left.
    + f_equal. apply IH. intros Hin. apply H. now right.
  - intros s. now rewrite replace_Z_app.
Qed.

(** ** When the normalizer fails *)

(** X10. Failure of [parse_natural_date]: it raises exactly when the
    natural-language strategy fails and dateutil raises, and the error
    is the one of dateutil; the error of parsedatetime never comes
    out. *)
Theorem parse_natural_date_fails (P : Parsers) (date_str : string)
  (e : Exception) :
  fst (parse_natural_date P date_str) = Raise e <->
  (exists e', natural_strategy P date_str = Raise e') /\
  dateutil_parse P date_str = Raise e.
Proof.
  split.
  - intros H. destruct (natural_strategy P date_str) as [d|e'] eqn:Hn.
    + rewrite (parse_natural_date_natural _ _ _ Hn) in H. discriminate.
    + destruct (parse_natural_date_fallback _ _ _ Hn) as [Hf _].
      rewrite Hf in H. split; [eauto | exact H].
  - intros [[e' Hn] Hd].
    destruct (parse_natural_date_fallback _ _ _ Hn) as [Hf _].
    now rewrite Hf.
Qed.

(** * Properties of the event operations *)

(** ** [book_event] *)

Lemma book_event_times_Raise (tz : Timezone) (s e : datetime)
  (err : Exception) :
  book_event_times tz s e = Raise err ->
  err = OverflowError "date value out of range" /\
  ((is_aware s = false /\ localizable tz s = false)
   \/ (is_aware e = false /\ localizable tz e = false)).
Proof.
  unfold book_event_times, localize, is_aware.
  destruct (tzinfo s), (tzinfo e); cbn [bind];
    repeat match goal with
           | |- context [localizable ?z ?d] =>
               let E := fresh "E" in
               destruct (localizable z d) eqn:E; cbn [bind]
           end;
    try discriminate; intros [= <-]; split; auto.
Qed.

Lemma book_event_inserts (env : Env) (svc : Service) (title : string)
  (start_time end_time start_time' end_time' : datetime)
  (description : string) (guests : option (list string)) (L : Ledger) :
  book_event_times (timezone env) start_time end_time
  = Ok (start_time', end_time') ->
  inserts (snd (book_event env svc title start_time end_time
                           description guests L))
  = inserts L ++ [event_body env svc title start_time' end_time'
                             description guests].
Proof.
  intros Ht. unfold book_event. rewrite Ht. cbv zeta.
  destruct (events_insert svc _ _ _) as [event|e];
    [|destruct e; reflexivity].
  destruct (subscript event "id") as [x|e]; [|destruct e; reflexivity].
  destruct (booked_of event) as [b|e]; [|destruct e]; reflexivity.
Qed.

(** X11. The insert request of [book_event]: when its two guards
    succeed the call sends exactly one insert, whatever the two times
    are (nothing is compared or looked up before); a time that carries
    a time zone is sent as it is, a naive one with the calendar zone's
    offset attached, so both sent times are aware and keep their
    wall-clock reading; both [timeZone] fields are the configured zone;
    and the [attendees] key is set exactly when a non-empty list is
    given.  The guards fail only when a naive time cannot be localized:
    the call then raises [OverflowError], sends nothing and logs
    nothing. *)
Theorem book_event_request (env : Env) (svc : Service) (title : string)
  (start_time end_time : datetime) (description : string)
  (guests : option (list string)) (L : Ledger) :
  (forall start_time' end_time',
      book_event_times (timezone env) start_time end_time
      = Ok (start_time', end_time') ->
      inserts (snd (book_event env svc title start_time end_time
                               description guests L))
      = inserts L ++ [mk_event_body title description
                        (isoformat env start_time') (TIMEZONE svc)
                        (isoformat env end_time') (TIMEZONE svc)
                        (match guests with
                         | Some [] => None
                         | other => other
                         end)] /\
      is_aware start_time' = true /\ is_aware end_time' = true /\
      wall start_time' = wall start_time /\
      wall end_time' = wall end_time /\
      (is_aware start_time = true -> start_time' = start_time) /\
      (is_aware end_time = true -> end_time' = end_time)) /\
  (forall err,
      book_event_times (timezone env) start_time end_time = Raise err ->
      book_event env svc title start_time end_time description guests L
      = (Raise (OverflowError "date value out of range"), L) /\
      ((is_aware start_time = false
        /\ localizable (timezone env) start_time = false)
       \/ (is_aware end_time = false
           /\ localizable (timezone env) end_time = false))) /\
  ((is_aware start_time = false ->
    localizable (timezone env) start_time = true) ->
   (is_aware end_time = false ->
    localizable (timezone env) end_time = true) ->
   exists start_time' end_time',
     book_event_times (timezone env) start_time end_time
     = Ok (start_time', end_time')).
Proof.
  split; [|split].
  - intros st en Ht. split.
    + rewrite (book_event_inserts env svc title _ _ _ _ description guests
                 L Ht).
      unfold event_body. do 2 f_equal.
      destruct guests as [[|g gs]|]; reflexivity.
    + apply book_event_times_Ok in Ht as (-> & -> & Hs & He & _).
      split; [exact Hs|]. split; [exact He|].
      unfold sent_time, is_aware.
      destruct (tzinfo start_time), (tzinfo end_time);
        repeat split; try reflexivity; discriminate.
  - intros err Ht.
    pose proof (book_event_times_Raise _ _ _ _ Ht) as [-> Hwhy].
    split; [|exact Hwhy]. unfold book_event. now rewrite Ht.
  - intros Hs He. do 2 eexists.
    now apply book_event_times_localizable.
Qed.

(** X12. An [HttpError] of the insert: when the two guards of
    [book_event] succeed and the insert raises an [HttpError], the call
    raises that same error after logging it, with the one insert sent
    and not repeated. *)
Theorem book_event_http_error (env : Env) (svc : Service) (title : string)
  (start_time end_time start_time' end_time' : datetime)
  (description : string) (guests : option (list string)) (L : Ledger)
  (m : string) :
  book_event_times (timezone env) start_time end_time
  = Ok (start_time', end_time') ->
  events_insert svc (List.length (inserts L)) (calendar_id env)
    (event_body env svc title start_time' end_time' description guests)
  = Raise (HttpError m) ->
  book_event env svc title start_time end_time description guests L
  = (Raise (HttpError m),
     note (SError "Failed to book event" (HttpError m))
          (sent_insert
             (event_body env svc title start_time' end_time'
                         description guests) L)).
Proof.
  intros Ht H. unfold book_event. rewrite Ht. cbv zeta. now rewrite H.
Qed.

Lemma book_event_http_error_witness :
  let body := event_body Sample.free_day SampleService.refusing "Review"
                (Sample.utc 2025 1 16 15 0) (Sample.utc 2025 1 16 16 0)
                "" None in
  book_event Sample.free_day SampleService.refusing "Review"
    (Sample.naive 2025 1 16 15 0) (Sample.naive 2025 1 16 16 0) "" None
    SampleService.ledger0
  = (Raise (HttpError "403 Forbidden"),
     note (SError "Failed to book event" (HttpError "403 Forbidden"))
          (sent_insert body SampleService.ledger0)).
Proof.
  intros body.
  apply (book_event_http_error Sample.free_day SampleService.refusing "Review"
           (Sample.naive 2025 1 16 15 0) (Sample.naive 2025 1 16 16 0)
           (Sample.utc 2025 1 16 15 0) (Sample.utc 2025 1 16 16 0)
           "" None SampleService.ledger0 "403 Forbidden");
    reflexivity.
Defined.

Lemma subscript_error (v : Json) (k : string) (e : Exception) :
  subscript v k = Raise e -> forall m, e <> HttpError m.
Proof.
  intros H m. destruct v; cbn in H; try (injection H as <-; discriminate).
  destruct (dict_find k fields); [discriminate|].
  injection H as <-. discriminate.
Qed.

Lemma subscript_error_kind (v : Json) (k : string) (e : Exception) :
  subscript v k = Raise e ->
  (exists key, e = KeyError key) \/ (exists msg, e = TypeError msg).
Proof.
  intros H. destruct v; cbn in H; try (injection H as <-; eauto).
  destruct (dict_find k fields); [discriminate|].
  injection H as <-. eauto.
Qed.

Lemma booked_of_error (event : Json) (e : Exception) :
  booked_of event = Raise e ->
  (exists key, e = KeyError key) \/ (exists msg, e = TypeError msg).
Proof.
  unfold booked_of, bind. intros H.
  repeat match type of H with
         | match subscript ?v ?k with _ => _ end = _ =>
             let E := fresh "E" in
             destruct (subscript v k) eqn:E;
             [|injection H as <-; exact (subscript_error_kind _ _ _ E)]
         end.
  discriminate.
Qed.

(** X13. An incomplete answer to the insert: when the two guards of
    [book_event] succeed and the provider's event has an id but lacks
    another key that [book_event] reads, the call raises a [KeyError]
    or a [TypeError] although the insert was sent and the booking has
    been logged as successful; the failure itself is not logged. *)
Theorem book_event_incomplete_answer (env : Env) (svc : Service)
  (title : string) (start_time end_time start_time' end_time' : datetime)
  (description : string) (guests : option (list string)) (L : Ledger)
  (event id : Json) (e : Exception) :
  let body := event_body env svc title start_time' end_time'
                         description guests in
  book_event_times (timezone env) start_time end_time
  = Ok (start_time', end_time') ->
  events_insert svc (List.length (inserts L)) (calendar_id env) body
  = Ok event ->
  subscript event "id" = Ok id ->
  booked_of event = Raise e ->
  book_event env svc title start_time end_time description guests L
  = (Raise e, note (SInfo "Event booked successfully") (sent_insert body L))
  /\ ((exists key, e = KeyError key) \/ (exists msg, e = TypeError msg)).
Proof.
  intros body Ht Hev Hid Hb.
  pose proof (booked_of_error _ _ Hb) as Hkind. split; [|exact Hkind].
  unfold book_event. rewrite Ht. cbv zeta. fold body.
  rewrite Hev, Hid, Hb.
  destruct Hkind as [[key ->] | [msg ->]]; reflexivity.
Qed.

Lemma book_event_incomplete_answer_witness :
  let body := event_body Sample.free_day SampleService.sloppy "Review"
                (Sample.utc 2025 1 16 15 0) (Sample.utc 2025 1 16 16 0)
                "" None in
  book_event Sample.free_day SampleService.sloppy "Review"
    (Sample.naive 2025 1 16 15 0) (Sample.naive 2025 1 16 16 0) "" None
    SampleService.ledger0
  = (Raise (KeyError "start"),
     note (SInfo "Event booked successfully")
          (sent_insert body SampleService.ledger0))
  /\ ((exists key, KeyError "start" = KeyError key)
      \/ (exists msg, KeyError "start" = TypeError msg)).
Proof.
  intros body.
  apply (book_event_incomplete_answer Sample.free_day SampleService.sloppy
           "Review" (Sample.naive 2025 1 16 15 0)
           (Sample.naive 2025 1 16 16 0) (Sample.utc 2025 1 16 15 0)
           (Sample.utc 2025 1 16 16 0) "" None SampleService.ledger0
           (JDict [("id", JStr "evt2"); ("summary", JStr "Review")])
           (JStr "evt2") (KeyError "start"));
    reflexivity.
Defined.

(** ** [get_events_for_date] *)

Lemma replace_time_valid (d : datetime) (h m s us : Z) :
  0 <= h <= 23 -> 0 <= m <= 59 -> 0 <= s <= 59 -> 0 <= us <= 999999 ->
  replace_time d h m s us
  = Ok (mk_datetime (wall d / US_PER_DAY * US_PER_DAY + h * US_PER_HOUR
                     + m * US_PER_MINUTE + s * US_PER_SECOND + us)
                    (tzinfo d)).
Proof.
  intros Hh Hm Hs Hu. unfold replace_time.
  repeat match goal with
         | |- context [?a <=? ?b] =>
             rewrite (proj2 (Z.leb_le a b)) by lia
         end.
  reflexivity.
Qed.

Lemma whole_day_naive (env : Env) (target : datetime) :
  is_aware target = false ->
  localizable (timezone env) target = true ->
  whole_day env target
  = Ok (on_day env target 0 0,
        mk_datetime (wall target / US_PER_DAY * US_PER_DAY + US_PER_DAY - 1)
                    (Some (utcoffset_wall (timezone env) (wall target)))).
Proof.
  unfold whole_day, localize, is_aware.
  destruct (tzinfo target); [discriminate|]. intros _ Hloc.
  rewrite Hloc. cbn [bind].
  rewrite !replace_time_valid by lia. cbn [bind wall tzinfo].
  unfold on_day. f_equal. f_equal; f_equal; unfold_units; lia.
Qed.

(** X14. The day window of [get_events_for_date]: for a naive target
    date that the calendar zone can localize, the call sends exactly one
    list request, for single events ordered by start time, from
    00:00:00 of the target's day to 23:59:59.999999 of the same day;
    both bounds are aware, they lie one day less one microsecond apart,
    and the localized target lies between them. *)
Theorem get_events_day_window (env : Env) (svc : Service)
  (target_date : datetime) (L : Ledger) :
  is_aware target_date = false ->
  localizable (timezone env) target_date = true ->
  exists day_start day_end,
    whole_day env target_date = Ok (day_start, day_end) /\
    lists (snd (get_events_for_date env svc target_date L))
    = lists L ++ [mk_list_query (calendar_id env) (isoformat env day_start)
                                (isoformat env day_end) true "startTime"] /\
    day_start = on_day env target_date 0 0 /\
    is_aware day_start = true /\ is_aware day_end = true /\
    instant day_end - instant day_start = US_PER_DAY - 1 /\
    instant day_start
    <= instant (sent_time (timezone env) target_date)
    <= instant day_end.
Proof.
  intros Hn Hloc. do 2 eexists.
  split; [apply whole_day_naive; assumption|].
  split.
  - unfold get_events_for_date. rewrite whole_day_naive by assumption.
    cbv zeta. unfold day_query.
    destruct (events_list svc _ _) as [res|e]; [|destruct e; reflexivity].
    destruct (bind _ _) as [f|e]; [|destruct e]; reflexivity.
  - split; [reflexivity|]. split; [reflexivity|]. split; [reflexivity|].
    unfold sent_time, is_aware in *.
    destruct (tzinfo target_date); [discriminate|].
    unfold instant, on_day; cbn [wall tzinfo].
    pose proof (Z.mul_div_le (wall target_date) US_PER_DAY
                  ltac:(unfold_units; lia)) as H1.
    pose proof (Z.mul_succ_div_gt (wall target_date) US_PER_DAY
                  ltac:(unfold_units; lia)) as H2.
    unfold_units. lia.
Qed.

Lemma get_events_day_window_witness :
  exists day_start day_end,
    whole_day Sample.free_day Sample.target = Ok (day_start, day_end) /\
    lists (snd (get_events_for_date Sample.free_day SampleService.service
                  Sample.target SampleService.ledger0))
    = lists SampleService.ledger0
      ++ [mk_list_query (calendar_id Sample.free_day)
            (isoformat Sample.free_day day_start)
            (isoformat Sample.free_day day_end) true "startTime"] /\
    day_start = on_day Sample.free_day Sample.target 0 0 /\
    is_aware day_start = true /\ is_aware day_end = true /\
    instant day_end - instant day_start = US_PER_DAY - 1 /\
    instant day_start
    <= instant (sent_time (timezone Sample.free_day) Sample.target)
    <= instant day_end.
Proof.
  apply (get_events_day_window Sample.free_day SampleService.service
           Sample.target SampleService.ledger0);
    reflexivity.
Defined.

Lemma dict_get_error (v : Json) (k : string) (d : Json) (e : Exception) :
  dict_get v k d = Raise e -> forall m, e <> HttpError m.
Proof.
  intros H m. destruct v; cbn in H; try discriminate;
    injection H as <-; discriminate.
Qed.

Lemma time_or_date_error (event : Json) (k : string) (e : Exception) :
  time_or_date event k = Raise e -> forall m, e <> HttpError m.
Proof.
  unfold time_or_date, bind. intros H.
  destruct (subscript event k) eqn:E;
    [|injection H as <-; exact (subscript_error _ _ _ E)].
  destruct (dict_get a "date" JNull) eqn:E2;
    [|injection H as <-; exact (dict_get_error _ _ _ _ E2)].
  exact (dict_get_error _ _ _ _ H).
Qed.

Lemma format_event_error (event : Json) (e : Exception) :
  format_event event = Raise e -> forall m, e <> HttpError m.
Proof.
  unfold format_event, bind. intros H.
  destruct (time_or_date event "start") eqn:E1;
    [|injection H as <-; exact (time_or_date_error _ _ _ E1)].
  destruct (time_or_date event "end") eqn:E2;
    [|injection H as <-; exact (time_or_date_error _ _ _ E2)].
  destruct (subscript event "id") eqn:E3;
    [|injection H as <-; exact (subscript_error _ _ _ E3)].
  destruct (subscript event "summary") eqn:E4;
    [|injection H as <-; exact (subscript_error _ _ _ E4)].
  destruct (dict_get event "description" (JStr "")) eqn:E5;
    [discriminate|injection H as <-; exact (dict_get_error _ _ _ _ E5)].
Qed.

Lemma format_event_untitled (fields : list (string * Json)) :
  dict_find "summary" fields = None ->
  exists e, format_event (JDict fields) = Raise e.
Proof.
  intros H. unfold format_event, bind.
  destruct (time_or_date _ "start"); [|eauto].
  destruct (time_or_date _ "end"); [|eauto].
  destruct (subscript _ "id"); [|eauto].
  cbn [subscript]. rewrite H. eauto.
Qed.

Lemma format_events_untitled (events : list Json)
  (fields : list (string * Json)) :
  In (JDict fields) events ->
  dict_find "summary" fields = None ->
  exists e, format_events events = Raise e /\ forall m, e <> HttpError m.
Proof.
  intros Hin Hs. induction events as [|ev rest IH]; [destruct Hin|].
  cbn [format_events]. unfold bind.
  destruct (format_event ev) as [fe|e] eqn:E.
  - destruct Hin as [-> | Hin].
    + destruct (format_event_untitled _ Hs) as [e He]. congruence.
    + destruct (IH Hin) as (e & -> & Hne). eauto.
  - exists e. split; [reflexivity | exact (format_event_error _ _ E)].
Qed.

(** X15. An event without a title: when the provider's list for the day
    holds an event that has no [summary] key, the whole call of
    [get_events_for_date] raises, returning no event at all; the error
    is not an [HttpError], so nothing is logged about it. *)
Theorem get_events_untitled (env : Env) (svc : Service)
  (target_date : datetime) (L : Ledger) (day_start day_end : datetime)
  (result : Json) (events : list Json) (fields : list (string * Json)) :
  whole_day env target_date = Ok (day_start, day_end) ->
  events_list svc (List.length (lists L)) (day_query env day_start day_end)
  = Ok result ->
  dict_get result "items" (JList []) = Ok (JList events) ->
  In (JDict fields) events ->
  dict_find "summary" fields = None ->
  exists e,
    get_events_for_date env svc target_date L
    = (Raise e, sent_list (day_query env day_start day_end) L) /\
    (forall m, e <> HttpError m) /\
    journal (sent_list (day_query env day_start day_end) L) = journal L.
Proof.
  intros Hw Hl Hi Hin Hs.
  destruct (format_events_untitled events fields Hin Hs) as (e & He & Hne).
  exists e. split; [|split; [exact Hne | reflexivity]].
  unfold get_events_for_date. rewrite Hw. cbv zeta. rewrite Hl, Hi.
  cbn [bind py_iter]. rewrite He.
  destruct e; try reflexivity. exfalso. eapply Hne. reflexivity.
Qed.

Lemma get_events_untitled_witness :
  exists e,
    get_events_for_date Sample.free_day SampleService.sloppy Sample.target
      SampleService.ledger0
    = (Raise e,
       sent_list (day_query Sample.free_day
                    (on_day Sample.free_day Sample.target 0 0)
                    (mk_datetime (wall (on_day Sample.free_day Sample.target
                                          23 59)
                                  + 59 * US_PER_SECOND + 999999) (Some 0)))
                 SampleService.ledger0) /\
    (forall m, e <> HttpError m) /\
    journal (sent_list (day_query Sample.free_day
                          (on_day Sample.free_day Sample.target 0 0)
                          (mk_datetime
                             (wall (on_day Sample.free_day Sample.target
                                      23 59)
                              + 59 * US_PER_SECOND + 999999) (Some 0)))
                       SampleService.ledger0)
    = journal SampleService.ledger0.
Proof.
  eapply (get_events_untitled Sample.free_day SampleService.sloppy
            Sample.target SampleService.ledger0 _ _ _
            [SampleService.standup; SampleService.untitled;
             SampleService.holiday]).
  - vm_compute; reflexivity.
  - reflexivity.
  - reflexivity.
  - right. left. reflexivity.
  - reflexivity.
Defined.

Lemma subscript_Ok (v x : Json) (k : string) :
  subscript v k = Ok x ->
  exists fields, v = JDict fields /\ dict_find k fields = Some x.
Proof.
  destruct v; cbn; try discriminate.
  destruct (dict_find k fields) eqn:E; [|discriminate].
  intros [= <-]. eauto.
Qed.

Lemma time_or_date_Ok (event t : Json) (k : string) :
  time_or_date event k = Ok t ->
  exists fields sub,
    event = JDict fields /\ dict_find k fields = Some (JDict sub) /\
    t = shown_time sub.
Proof.
  unfold time_or_date, bind.
  destruct (subscript event k) as [r|] eqn:E; [|discriminate].
  apply subscript_Ok in E as (fields & -> & Hk).
  destruct r; cbn; try discriminate.
  intros [= <-]. exists fields, fields0. repeat split; auto.
Qed.

Lemma format_event_Ok (event : Json) (entry : FormattedEvent) :
  format_event event = Ok entry -> entry_of event entry.
Proof.
  unfold format_event, bind.
  destruct (time_or_date event "start") as [st|] eqn:E1; [|discriminate].
  destruct (time_or_date event "end") as [en|] eqn:E2; [|discriminate].
  destruct (subscript event "id") as [i|] eqn:E3; [|discriminate].
  destruct (subscript event "summary") as [t|] eqn:E4; [|discriminate].
  apply time_or_date_Ok in E1 as (f & sf & -> & Hs & ->).
  apply time_or_date_Ok in E2 as (f' & ef & [= <-] & He & ->).
  apply subscript_Ok in E3 as (f' & [= <-] & Hi).
  apply subscript_Ok in E4 as (f' & [= <-] & Ht).
  cbn [dict_get]. intros [= <-].
  exists f, sf, ef. cbn [fe_id fe_title fe_start fe_end fe_description].
  repeat split; auto.
Qed.

Lemma format_events_Ok (events : list Json) :
  forall entries,
    format_events events = Ok entries -> Forall2 entry_of events entries.
Proof.
  induction events as [|ev rest IH]; intros entries H.
  - injection H as <-. constructor.
  - cbn [format_events] in H. unfold bind in H.
    destruct (format_event ev) as [fe|] eqn:E; [|discriminate].
    destruct (format_events rest) as [more|]; [|discriminate].
    injection H as <-. constructor; [now apply format_event_Ok | now apply IH].
Qed.

(** X16. What [get_events_for_date] returns: on success the list has one
    entry per event of the provider's [items], in the provider's order;
    each entry carries the event's id and summary, shows for start and
    end the [dateTime] of the event, or its [date] when it is an all-day
    event, and has the empty text as description when the event has
    none. *)
Theorem get_events_entries (env : Env) (svc : Service)
  (target_date : datetime) (L L' : Ledger) (day_start day_end : datetime)
  (result : Json) (events : list Json) (entries : list FormattedEvent) :
  whole_day env target_date = Ok (day_start, day_end) ->
  events_list svc (List.length (lists L)) (day_query env day_start day_end)
  = Ok result ->
  dict_get result "items" (JList []) = Ok (JList events) ->
  get_events_for_date env svc target_date L = (Ok entries, L') ->
  Forall2 entry_of events entries /\
  List.length entries = List.length events.
Proof.
  intros Hw Hl Hi H. unfold get_events_for_date in H.
  rewrite Hw in H. cbv zeta in H. rewrite Hl, Hi in H.
  cbn [bind py_iter] in H.
  destruct (format_events events) as [f|e] eqn:E;
    [|destruct e; discriminate].
  injection H as <- _. apply format_events_Ok in E.
  split; [exact E | symmetry; eapply Forall2_length; exact E].
Qed.

Lemma get_events_entries_witness :
  exists entries L',
    get_events_for_date Sample.free_day SampleService.service Sample.target
      SampleService.ledger0 = (Ok entries, L') /\
    Forall2 entry_of [SampleService.standup; SampleService.holiday] entries /\
    List.length entries = 2%nat.
Proof.
  do 2 eexists. split; [vm_compute; reflexivity|].
  eapply (get_events_entries Sample.free_day SampleService.service
            Sample.target SampleService.ledger0).
  - vm_compute; reflexivity.
  - reflexivity.
  - reflexivity.
  - vm_compute; reflexivity.
Defined.

(** X17. A target date that carries a time zone: [get_events_for_date]
    raises the [ValueError] of [localize], sends no request and logs
    nothing. *)
Theorem get_events_aware_target (env : Env) (svc : Service)
  (target_date : datetime) (L : Ledger) :
  is_aware target_date = true ->
  get_events_for_date env svc target_date L
  = (Raise (ValueError "Not naive datetime (tzinfo is already set)"), L).
Proof.
  unfold is_aware, get_events_for_date, whole_day, localize.
  destruct (tzinfo target_date); [|discriminate]. reflexivity.
Qed.

Lemma get_events_aware_target_witness :
  get_events_for_date Sample.free_day SampleService.service
    (Sample.utc 2025 1 15 13 45) SampleService.ledger0
  = (Raise (ValueError "Not naive datetime (tzinfo is already set)"),
     SampleService.ledger0).
Proof.
  apply (get_events_aware_target Sample.free_day SampleService.service
           (Sample.utc 2025 1 15 13 45) SampleService.ledger0).
  reflexivity.
Defined.

(** ** [delete_event] *)

(** X18. [delete_event] sends exactly one delete request; it returns
    [True] exactly when the provider accepts it and [False] exactly when
    the provider raises an [HttpError], which is logged and goes no
    further; any other exception of the provider comes out unchanged. *)
Theorem delete_event_outcome (env : Env) (svc : Service) (event_id : string)
  (L : Ledger) :
  let answer := events_delete svc (List.length (deletes L))
                              (calendar_id env) event_id in
  let r := delete_event env svc event_id L in
  deletes (snd r) = deletes L ++ [event_id] /\
  (fst r = Ok true <-> exists u, answer = Ok u) /\
  (fst r = Ok false <-> exists m, answer = Raise (HttpError m)) /\
  (forall m, answer = Raise (HttpError m) ->
             journal (snd r)
             = journal L ++ [SError "Failed to delete event" (HttpError m)]) /\
  (forall e, fst r = Raise e <->
             answer = Raise e /\ forall m, e <> HttpError m).
Proof.
  intros answer r. subst answer r. unfold delete_event. cbv zeta.
  destruct (events_delete svc _ _ _) as [u|e].
  - cbn [fst snd]. split; [reflexivity|].
    split; [split; eauto|].
    split; [split; [discriminate | intros [m H]; discriminate H]|].
    split; [discriminate|].
    intros e. split; [discriminate | intros [H _]; discriminate H].
  - assert (Hother :
              (forall m, e <> HttpError m) ->
              let r := (@Raise bool e, sent_delete event_id L) in
              deletes (snd r) = deletes L ++ [event_id] /\
              (fst r = Ok true <-> exists u : unit, Raise e = Ok u) /\
              (fst r = Ok false <-> exists m, @Raise unit e
                                              = Raise (HttpError m)) /\
              (forall m, @Raise unit e = Raise (HttpError m) ->
                         journal (snd r)
                         = journal L
                           ++ [SError "Failed to delete event"
                                      (HttpError m)]) /\
              (forall e', fst r = Raise e' <->
                          @Raise unit e = Raise e'
                          /\ forall m, e' <> HttpError m)).
    { intros Hne. cbn [fst snd]. split; [reflexivity|].
      split; [split; [discriminate | intros [u H]; discriminate H]|].
      split; [split; [discriminate
                     | intros [m H]; injection H as ->;
                       exfalso; eapply Hne; reflexivity]|].
      split; [intros m H; injection H as ->;
              exfalso; eapply Hne; reflexivity|].
      intros e'. split.
      - intros H. injection H as <-. split; [reflexivity | exact Hne].
      - intros [H _]. injection H as <-. reflexivity. }
    destruct e; try (apply Hother; intros m; discriminate).
    cbn [fst snd]. split; [reflexivity|].
    split; [split; [discriminate | intros [u H]; discriminate H]|].
    split; [split; eauto|].
    split; [intros m H; injection H as <-; reflexivity|].
    intros e'. split; [discriminate|].
    intros [H Hne]. injection H as <-. exfalso. eapply Hne. reflexivity.
Qed.

(** * Properties of the agent layer *)

(** ** [SuggestSlotsTool._run] *)

Lemma slot_lines_length (env : Env) (slots : list Slot) :
  forall (i : nat) (lines : list string),
    slot_lines env i slots = Ok lines ->
    List.length lines = List.length slots.
Proof.
  induction slots as [|s rest IH]; intros i lines H.
  - injection H as <-. reflexivity.
  - cbn [slot_lines] in H. unfold bind in H.
    destruct (slot_line env i s); [|discriminate].
    destruct (slot_lines env (S i) rest) as [more|] eqn:E; [|discriminate].
    injection H as <-. cbn [List.length]. f_equal. eapply IH. exact E.
Qed.

(** X19. At most five slots are shown: when the engine returns a list of
    slots that is not empty and the texts of its first five can be read
    back, the reply of the tool is the header followed by the lines of
    those first slots, min(5, number of slots) of them; the other slots
    are not mentioned. *)
Theorem suggest_tool_shows_five (env : Env) (P : Parsers) (fuel : nat)
  (date_str : string) (duration : Z) (w w1 : World)
  (target_date : datetime) (trace : list ParseEvent)
  (slots : list Slot) (lines : list string) :
  parse_natural_date P date_str = (Ok target_date, trace) ->
  suggest_available_slots env fuel target_date duration 9 17 w
  = Some (Ok slots, w1) ->
  slots <> [] ->
  slot_lines env 1 (firstn 5 slots) = Ok lines ->
  SuggestSlotsTool_run env P fuel date_str duration w
  = Some ((suggest_header date_str duration
           ++ String.concat newline lines)%string,
          w1, trace ++ [LogDebug "Suggesting slots"]) /\
  List.length lines = Nat.min 5 (List.length slots) /\
  (1 <= List.length lines <= 5)%nat.
Proof.
  intros Hp Hs Hne Hl. unfold SuggestSlotsTool_run.
  rewrite Hp, Hs. destruct slots as [|s rest]; [congruence|].
  rewrite Hl. split; [reflexivity|].
  apply slot_lines_length in Hl. rewrite length_firstn in Hl.
  split; [exact Hl|]. cbn [List.length] in *. lia.
Qed.

Lemma suggest_tool_shows_five_witness :
  exists (w1 : World) (slots : list Slot) (lines : list string),
    SuggestSlotsTool_run SampleAgent.free_day SampleAgent.parsers 20
      "today" 60 Sample.world0
    = Some ((suggest_header "today" 60
             ++ String.concat newline lines)%string,
            w1, [CalParse "today"; LogDebug "parsedatetime succeeded"]
                ++ [LogDebug "Suggesting slots"]) /\
    List.length lines = Nat.min 5 (List.length slots) /\
    (1 <= List.length lines <= 5)%nat.
Proof.
  do 3 eexists.
  eapply (suggest_tool_shows_five SampleAgent.free_day SampleAgent.parsers
            20 "today" 60 Sample.world0 _ (Sample.naive 2025 1 15 13 45)).
  - vm_compute; reflexivity.
  - vm_compute; reflexivity.
  - discriminate.
  - vm_compute; reflexivity.
Defined.

(** X20. A date with an explicit offset cannot be used to suggest slots:
    when [parse_natural_date] returns a datetime that carries a time
    zone, the tool replies with its apology and the provider is not
    queried, because the engine refuses to localize the date. *)
Theorem suggest_tool_aware_date (env : Env) (P : Parsers) (fuel : nat)
  (date_str : string) (duration : Z) (w : World) (target_date : datetime) :
  fst (parse_natural_date P date_str) = Ok target_date ->
  is_aware target_date = true ->
  exists w' trace,
    SuggestSlotsTool_run env P fuel date_str duration w
    = Some (suggest_apology date_str, w', trace) /\
    requests w' = requests w /\
    In (DateutilParse date_str) trace.
Proof.
  intros Hp Ha. unfold SuggestSlotsTool_run.
  assert (Hd : In (DateutilParse date_str)
                  (snd (parse_natural_date P date_str))).
  { destruct (natural_strategy P date_str) as [d|e] eqn:Hn.
    - rewrite (parse_natural_date_natural _ _ _ Hn) in Hp.
      injection Hp as ->. apply natural_strategy_naive in Hn. congruence.
    - now apply parse_natural_date_fallback in Hn. }
  destruct (parse_natural_date P date_str) as [r trace].
  cbn [fst snd] in Hp, Hd. subst r.
  unfold suggest_available_slots, working_window, localize, is_aware in *.
  destruct (tzinfo target_date); [|discriminate]. cbn [bind].
  unfold suggest_failed. do 2 eexists. split; [reflexivity|].
  split; [reflexivity|]. apply in_or_app. left. apply in_or_app. now left.
Qed.

Lemma suggest_tool_aware_date_witness :
  exists w' trace,
    SuggestSlotsTool_run SampleAgent.free_day SampleAgent.parsers 20
      "2025-01-15T13:45:00+00:00" 60 Sample.world0
    = Some (suggest_apology "2025-01-15T13:45:00+00:00", w', trace) /\
    requests w' = requests Sample.world0 /\
    In (DateutilParse "2025-01-15T13:45:00+00:00") trace.
Proof.
  apply (suggest_tool_aware_date SampleAgent.free_day SampleAgent.parsers 20
           "2025-01-15T13:45:00+00:00" 60 Sample.world0
           (Sample.utc 2025 1 15 13 45));
    reflexivity.
Defined.

(** ** [process_message] *)

Lemma steps_reply_not_blank (X : Executor) (fields : list (string * PyObj))
  (reply : string) :
  steps_reply X fields = Ok reply -> is_blank reply = false.
Proof.
  unfold steps_reply.
  destruct (truthy _); [|intros [= <-]; reflexivity].
  unfold bind.
  destruct (match _ with OList l => _ | _ => _ end) as [last_step|];
    [|discriminate].
  destruct last_step as [| |items| | |]; try (intros [= <-]; reflexivity).
  destruct items as [|a [|observation [|c rest]]];
    try (intros [= <-]; reflexivity).
  destruct (truthy observation); cbn [andb];
    [|intros [= <-]; reflexivity].
  destruct (is_blank (py_str X observation)) eqn:E; cbn [negb];
    intros [= <-]; [reflexivity | exact E].
Qed.

Lemma reply_of_not_blank (X : Executor) (response : PyObj) (reply : string) :
  reply_of X response = Ok reply -> is_blank reply = false.
Proof.
  unfold reply_of.
  destruct response as [| | | |fields|]; try (intros [= <-]; reflexivity).
  destruct (if truthy _ then _ else _) as [|output| | | |];
    try discriminate.
  destruct (is_blank output) eqn:E; cbn [negb andb].
  - apply steps_reply_not_blank.
  - destruct (contains error_phrase output); cbn [negb].
    + apply steps_reply_not_blank.
    + now intros [= <-].
Qed.

(** X21. The reply of [process_message]: for every executor and every
    message the reply is never blank; a blank message gets the fixed
    prompt without the executor being invoked; any other message
    invokes the executor exactly once, and when that call raises the
    reply is "Network Error". *)
Theorem process_message_reply (X : Executor) (message : string)
  (chat_history : option (list (string * string))) :
  let r := process_message X message chat_history in
  let history := match chat_history with Some h => h | None => [] end in
  is_blank (fst r) = false /\
  (is_blank message = true ->
   r = ("Please provide a message first."%string, [])) /\
  (is_blank message = false ->
   exists rest,
     snd r = [AgentDebug "Processing message"; Invoked message history]
             ++ rest /\
     forall m h, ~ In (Invoked m h) rest) /\
  (is_blank message = false ->
   forall e, invoke X message history = Raise e ->
             fst r = network_error).
Proof.
  intros r history. subst r. unfold process_message. fold history.
  destruct (is_blank message) eqn:Hb.
  - repeat split; try reflexivity; discriminate.
  - split; [|split; [discriminate|split]].
    + destruct (invoke X message history) as [response|e]; cbn [bind];
        [|reflexivity].
      destruct (reply_of X response) as [reply|e] eqn:E; cbn [fst];
        [now apply reply_of_not_blank in E | reflexivity].
    + intros _.
      destruct (bind _ _) as [reply|e]; cbn [snd].
      * exists []. split; [reflexivity | intros m h []].
      * eexists. split; [reflexivity|].
        intros m h [H | []]. discriminate H.
    + intros _ e He. rewrite He. reflexivity.
Qed.

(** ** [CheckAvailabilityTool._run] and [GetEventsTool._run] *)

Lemma busy_lines_timezone (tz : Timezone) (env : Env)
  (periods : list BusyPeriod) :
  busy_lines (with_timezone tz env) periods = busy_lines env periods.
Proof.
  induction periods as [|p rest IH]; [reflexivity|].
  cbn [busy_lines]. now rewrite IH.
Qed.

(** X22. The availability reply ignores the calendar time zone: the
    tool sends the parsed times as they are and prints the busy times
    as the provider wrote them, without converting either to the
    configured zone, so its reply, its query and its log are the same
    under every calendar time zone. *)
Theorem check_tool_ignores_timezone (tz : Timezone) (env : Env) (P : Parsers)
  (date_str start_time end_time : string) (w : World) :
  CheckAvailabilityTool_run (with_timezone tz env) P date_str
                            start_time end_time w
  = CheckAvailabilityTool_run env P date_str start_time end_time w.
Proof.
  unfold CheckAvailabilityTool_run.
  destruct (parse_natural_date P _) as [[s|e] t1]; [|reflexivity].
  destruct (parse_natural_date P _) as [[en|e] t2]; [|reflexivity].
  change (check_availability (with_timezone tz env) s en w)
    with (check_availability env s en w).
  destruct (check_availability env s en w) as [[[|p rest]|e] w1];
    try reflexivity.
  now rewrite busy_lines_timezone.
Qed.

(** X23. One untitled event hides the day: when the provider's list for
    the day holds an event without a [summary] key, the events tool
    replies with its apology, showing none of the day's events. *)
Theorem events_tool_untitled (env : Env) (svc : Service) (P : Parsers)
  (show : Json -> string) (date_str : string) (L : Ledger)
  (target_date day_start day_end : datetime) (trace : list ParseEvent)
  (result : Json) (events : list Json) (fields : list (string * Json)) :
  parse_natural_date P date_str = (Ok target_date, trace) ->
  whole_day env target_date = Ok (day_start, day_end) ->
  events_list svc (List.length (lists L)) (day_query env day_start day_end)
  = Ok result ->
  dict_get result "items" (JList []) = Ok (JList events) ->
  In (JDict fields) events ->
  dict_find "summary" fields = None ->
  fst (fst (GetEventsTool_run env svc P show date_str L))
  = events_apology date_str.
Proof.
  intros Hp Hw Hl Hi Hin Hs.
  destruct (format_events_untitled events fields Hin Hs) as (e & He & Hne).
  unfold GetEventsTool_run. rewrite Hp.
  unfold get_events_for_date. rewrite Hw. cbv zeta. rewrite Hl, Hi.
  cbn [bind py_iter]. rewrite He.
  destruct e; reflexivity.
Qed.

Lemma events_tool_untitled_witness :
  fst (fst (GetEventsTool_run Sample.free_day SampleService.sloppy
              SampleAgent.parsers (fun _ => ""%string) "today"
              SampleService.ledger0))
  = events_apology "today".
Proof.
  eapply (events_tool_untitled Sample.free_day SampleService.sloppy
            SampleAgent.parsers (fun _ => ""%string) "today"
            SampleService.ledger0 _ _ _ _ _
            [SampleService.standup; SampleService.untitled;
             SampleService.holiday]).
  - vm_compute; reflexivity.
  - vm_compute; reflexivity.
  - reflexivity.
  - reflexivity.
  - right. left. reflexivity.
  - reflexivity.
Defined.
